(** * Utility routines of the seq2seq training pipeline (seq2seq/utils/utils.py)

    A shallow embedding of the module's routines and the proofs of the
    properties stated about them.  Calls that leave the interpreter
    (os.system, os.path.exists, os.makedirs, glob.glob, the logger, the
    JSON writer) are recorded as events of a history; what the operating
    system answers is a parameter of the development. *)

From Stdlib Require Import ZArith Lia Ascii String DecimalString.
From Stdlib Require DecimalPos.
From stdpp Require Import base strings list functions gmap sorting.

Local Open Scope string_scope.
Local Open Scope list_scope.
Local Open Scope Z_scope.

(** ** Python strings *)

Module PyStr.

Definition startswith_sep (s : string) : bool :=
  match s with
  | String c _ => bool_decide (c = "/"%char)
  | EmptyString => false
  end.

Fixpoint endswith_sep (s : string) : bool :=
  match s with
  | EmptyString => false
  | String c EmptyString => bool_decide (c = "/"%char)
  | String _ r => endswith_sep r
  end.

Definition is_empty (s : string) : bool :=
  match s with EmptyString => true | _ => false end.

(** posixpath.join(path, b) for one trailing component. *)
Definition os_path_join (path b : string) : string :=
  if startswith_sep b then b
  else if is_empty path || endswith_sep path then path +:+ b
  else path +:+ "/" +:+ b.

(** s.split(sep) for a one-character separator: never the empty list. *)
Fixpoint split (sep : ascii) (s : string) : list string :=
  match s with
  | EmptyString => [EmptyString]
  | String c r =>
      if bool_decide (c = sep) then EmptyString :: split sep r
      else match split sep r with
           | h :: t => String c h :: t
           | [] => [String c EmptyString]
           end
  end.

(** sep in s *)
Fixpoint contains (sep : ascii) (s : string) : bool :=
  match s with
  | EmptyString => false
  | String c r => bool_decide (c = sep) || contains sep r
  end.

(** l[-1] on a list of strings; IndexError on the empty list is not
    reachable through [split]. *)
Definition last_item (l : list string) : string := List.last l EmptyString.

(** Characters that int() skips around the literal.  A character stands
    for a code point below 256: tab to carriage return, the space, and the
    two Latin-1 spaces U+0085 and U+00A0.  (The separators U+001C to U+001F
    are white space for str.strip but not for int.) *)
Definition is_space (c : ascii) : bool :=
  let n := nat_of_ascii c in
  ((9 <=? n)%nat && (n <=? 13)%nat) || (n =? 32)%nat || (n =? 133)%nat || (n =? 160)%nat.

Definition is_digit (c : ascii) : bool :=
  let n := nat_of_ascii c in (48 <=? n)%nat && (n <=? 57)%nat.

Definition digit_val (c : ascii) : Z := Z.of_nat (nat_of_ascii c - 48).

(** The digit part of int(s, 10): digits, single underscores between
    digits only.  [prev] tells whether the previous character was a
    digit. *)
Fixpoint int_digits (acc : Z) (prev : bool) (cs : list ascii) : option Z :=
  match cs with
  | [] => if prev then Some acc else None
  | c :: r =>
      if is_digit c then int_digits (10 * acc + digit_val c) true r
      else if bool_decide (c = "_"%char)
           then (if prev then int_digits acc false r else None)
           else None
  end.

Fixpoint lstrip (cs : list ascii) : list ascii :=
  match cs with
  | c :: r => if is_space c then lstrip r else cs
  | [] => []
  end.

Definition strip (cs : list ascii) : list ascii :=
  rev (lstrip (rev (lstrip cs))).

(** int(s): None stands for ValueError. *)
Definition int (s : string) : option Z :=
  match strip (list_ascii_of_string s) with
  | c :: r =>
      if bool_decide (c = "+"%char) then int_digits 0 false r
      else if bool_decide (c = "-"%char) then Z.opp <$> int_digits 0 false r
      else int_digits 0 false (c :: r)
  | [] => None
  end.

(** What int() accepts, as a grammar: digits with single underscores
    between them, an optional sign in front, white space around. *)
Inductive digits : list ascii → Prop :=
| digits_one c : is_digit c = true → digits [c]
| digits_more c r : is_digit c = true → digits r → digits (c :: r)
| digits_underscore c r :
    is_digit c = true → digits r → digits (c :: "_"%char :: r).

Inductive sign : list ascii → Prop :=
| sign_none : sign []
| sign_plus : sign ["+"%char]
| sign_minus : sign ["-"%char].

Inductive decimal_integer : string → Prop :=
| decimal_integer_intro ws1 sg body ws2 :
    Forall (λ c, is_space c = true) ws1 →
    Forall (λ c, is_space c = true) ws2 →
    sign sg → digits body →
    decimal_integer (string_of_list_ascii (ws1 ++ sg ++ body ++ ws2)).

(** str(n) for an int. *)
Definition str (n : Z) : string := NilZero.string_of_int (Z.to_int n).

End PyStr.

(** ** Exceptions and results *)

Inductive exn : Type :=
| KeyError (key : string)
| ValueError
| AttributeError (attr : string)
| AssertionError
| Exception (msg : string)
| OSError.

Inductive result (A : Type) : Type :=
| Ok (a : A)
| Raise (e : exn).
Arguments Ok {A} a.
Arguments Raise {A} e.

Definition is_ok {A} (r : result A) : bool :=
  match r with Ok _ => true | Raise _ => false end.

Global Instance result_ret : MRet result := @Ok.
Global Instance result_bind : MBind result := λ A B k r,
  match r with Ok a => k a | Raise e => Raise e end.

(** ** The host: file system, shell and logger

    Every call that leaves the interpreter appends one event, with the
    answer it got, to the history.  The answers come from a [Host], which
    may let them depend on everything that happened before. *)

Section Host.

(** Values held by metrics and argument dictionaries. *)
Context {V : Type}.

Inductive event : Type :=
| Sys (cmd : string) (status : result Z)
| Exists (path : string) (answer : bool)
| Makedirs (path : string) (outcome : result unit)
| Glob (pattern : string) (paths : list string)
| Log (msg : string)
| SaveJson (content : gmap string V) (path : string).

Definition history : Type := list event.

Record Host : Type := {
  host_system : history → string → result Z;
  host_exists : history → string → bool;
  host_makedirs : history → string → result unit;
  host_glob : history → string → list string;
  (** str(v) as an f-string renders it *)
  host_format : V → string;
  host_format_dict : gmap string V → string
}.

Definition M (A : Type) : Type := history → result A * history.

Definition ret {A} (a : A) : M A := λ h, (Ok a, h).
Definition raise {A} (e : exn) : M A := λ h, (Raise e, h).
Definition bind {A B} (m : M A) (k : A → M B) : M B :=
  λ h, match m h with
       | (Ok a, h') => k a h'
       | (Raise e, h') => (Raise e, h')
       end.

(** try: body / except: handler, with a bare except clause. *)
Definition try_except {A} (body handler : M A) : M A :=
  λ h, match body h with
       | (Ok a, h') => (Ok a, h')
       | (Raise _, h') => handler h'
       end.

Fixpoint for_each {A} (l : list A) (body : A → M unit) : M unit :=
  match l with
  | [] => ret tt
  | x :: r => bind (body x) (λ _, for_each r body)
  end.

End Host.

Arguments event : clear implicits.
Arguments history : clear implicits.
Arguments Host : clear implicits.
Arguments M : clear implicits.

Global Instance M_ret {V} : MRet (M V) := @ret V.
Global Instance M_bind {V} : MBind (M V) := λ A B k m, bind m k.

(** ** The routines of utils.py that talk to the host *)

Module Utils.
Section Routines.

Context {V : Type} (host : Host V).

Definition os_system (cmd : string) : M V Z :=
  λ h, let r := host_system host h cmd in (r, h ++ [Sys cmd r]).

Definition os_path_exists (path : string) : M V bool :=
  λ h, let b := host_exists host h path in (Ok b, h ++ [Exists path b]).

Definition os_makedirs (path : string) : M V unit :=
  λ h, let r := host_makedirs host h path in (r, h ++ [Makedirs path r]).

Definition glob_glob (pattern : string) : M V (list string) :=
  λ h, let l := host_glob host h pattern in (Ok l, h ++ [Glob pattern l]).

Definition logger_info (msg : string) : M V unit :=
  λ h, (Ok tt, h ++ [Log msg]).

(** Modelled from the spec: save_json of third_party.utils, which is not
    part of the sources at hand.  It writes the dictionary as a JSON file
    at the given path. *)
Definition save_json (content : gmap string V) (path : string) : M V unit :=
  λ h, (Ok tt, h ++ [SaveJson content path]).

Definition create_dir (output_dir : string) : M V unit :=
  b ← os_path_exists output_dir ;
  if negb b then os_makedirs output_dir else ret tt.

Definition remote_path (upload_dir gcs_bucket : string) : string :=
  PyStr.os_path_join ("gs://" +:+ gcs_bucket) upload_dir.

Definition rm_command (tool upload_dir gcs_bucket : string) : string :=
  tool +:+ " -m rm -r " +:+ remote_path upload_dir gcs_bucket.

Definition cp_command (tool upload_dir gcs_bucket : string) : string :=
  tool +:+ " -m cp -r " +:+ upload_dir +:+ " " +:+ remote_path upload_dir gcs_bucket.

Definition primary_tool : string := "/root/google-cloud-sdk/bin/gsutil".
Definition fallback_tool : string := "gsutil".

(** The body of the try block. *)
Definition primary_attempt (upload_dir gcs_bucket : string) : M V unit :=
  os_system (rm_command primary_tool upload_dir gcs_bucket) ;;
  status ← os_system (cp_command primary_tool upload_dir gcs_bucket) ;
  if bool_decide (status ≠ 0) then raise (Exception "gsutil path not found")
  else mret tt.

(** The body of the except block. *)
Definition fallback_attempt (upload_dir gcs_bucket : string) : M V unit :=
  os_system (rm_command fallback_tool upload_dir gcs_bucket) ;;
  os_system (cp_command fallback_tool upload_dir gcs_bucket) ;;
  mret tt.

Definition upload (upload_dir gcs_bucket : string) : M V unit :=
  try_except (primary_attempt upload_dir gcs_bucket)
             (fallback_attempt upload_dir gcs_bucket).

Definition save_json_file (json_dict : gmap string V) (outfile_name output_dir : string)
    (gcs_bucket : option string) : M V unit :=
  save_json json_dict (PyStr.os_path_join output_dir outfile_name) ;;
  match gcs_bucket with
  | Some bucket =>
      logger_info "***** Uploading results into gs-bucket *****" ;;
      upload output_dir bucket
  | None => ret tt
  end.

(** sorted(metrics.keys()): strings compare by code point. *)
Definition sorted_keys (metrics : gmap string V) : list string :=
  merge_sort String.le (map fst (map_to_list metrics)).

Definition handle_metrics (split : string) (metrics : gmap string V)
    (output_dir : string) (gcs_bucket : option string) : M V unit :=
  logger_info ("***** " +:+ split +:+ " metrics *****") ;;
  for_each (sorted_keys metrics)
    (λ key, match metrics !! key with
            | Some v => logger_info ("  " +:+ key +:+ " = " +:+ host_format host v)
            | None => raise (KeyError key)
            end) ;;
  save_json_file metrics (split +:+ "_results.json") output_dir gcs_bucket.

Definition max_list (x : Z) (l : list Z) : Z := fold_left Z.max l x.

(** checkpoint.split('-')[-1] *)
Definition checkpoint_suffix (checkpoint : string) : string :=
  PyStr.last_item (PyStr.split "-" checkpoint).

(** [int(checkpoint.split('-')[-1]) for checkpoint in paths] *)
Fixpoint checkpoint_numbers (paths : list string) : result (list Z) :=
  match paths with
  | [] => Ok []
  | p :: r =>
      match PyStr.int (checkpoint_suffix p) with
      | None => Raise ValueError
      | Some n =>
          match checkpoint_numbers r with
          | Ok l => Ok (n :: l)
          | Raise e => Raise e
          end
      end
  end.

Definition get_last_checkpoint_path (output_dir : string) : M V string :=
  paths ← glob_glob (PyStr.os_path_join output_dir "checkpoint-*") ;
  if bool_decide (length paths = 0%nat) then ret output_dir
  else
    match checkpoint_numbers paths with
    | Raise e => raise e
    | Ok [] => raise ValueError
    | Ok (c :: cs) =>
        ret (PyStr.os_path_join output_dir ("checkpoint-" +:+ PyStr.str (max_list c cs)))
    end.

End Routines.
End Utils.

(** ** What a run leaves in the history *)

Section Observations.

Context {V : Type}.

(** The events a run appended, given the history before and after. *)
Definition new_events (h h' : history V) : list (event V) := drop (length h) h'.

(** Some os.system call was made with this command line. *)
Definition ran (cmd : string) (evs : list (event V)) : Prop :=
  ∃ r, Sys cmd r ∈ evs.

(** Some os.system call was made. *)
Definition shell_used (evs : list (event V)) : Prop :=
  ∃ cmd r, Sys cmd r ∈ evs.

Definition is_log (e : event V) : Prop :=
  match e with Log _ => True | _ => False end.

(** The log lines of handle_metrics for the given keys, in their order. *)
Definition metric_lines (fmt : V → string) (metrics : gmap string V)
    (keys : list string) (logs : list (event V)) : Prop :=
  Forall2 (λ key e, ∃ v, metrics !! key = Some v ∧
                         e = Log ("  " +:+ key +:+ " = " +:+ fmt v)) keys logs.

Definition fallback_ran (upload_dir gcs_bucket : string) (evs : list (event V)) : Prop :=
  ran (Utils.rm_command Utils.fallback_tool upload_dir gcs_bucket) evs.

(** The try block ended in an exception: an os.system call raised, or
    the copy came back with a nonzero status. *)
Definition primary_raised (upload_dir gcs_bucket : string) (evs : list (event V)) : Prop :=
  (∃ e, Sys (Utils.rm_command Utils.primary_tool upload_dir gcs_bucket) (Raise e) ∈ evs) ∨
  (∃ r, Sys (Utils.cp_command Utils.primary_tool upload_dir gcs_bucket) r ∈ evs ∧ r ≠ Ok 0).

(** Only the remove of the try block came back with a nonzero status; its
    copy returned 0. *)
Definition primary_rm_failed_alone (upload_dir gcs_bucket : string)
    (evs : list (event V)) : Prop :=
  (∃ n, n ≠ 0 ∧
        Sys (Utils.rm_command Utils.primary_tool upload_dir gcs_bucket) (Ok n) ∈ evs) ∧
  Sys (Utils.cp_command Utils.primary_tool upload_dir gcs_bucket) (Ok 0) ∈ evs.

(** A run started on history h keeps h and adds to it the events of at
    least [lo] and at most [hi] calls to the host. *)
Definition host_calls {A} (run : result A * history V) (h : history V)
    (lo hi : nat) : Prop :=
  ∃ evs, snd run = h ++ evs ∧ (lo ≤ length evs ≤ hi)%nat.

(** s is the text of p after its last '-', or all of p when p has none. *)
Definition after_last_dash (p s : string) : Prop :=
  PyStr.contains "-" s = false ∧
  ((PyStr.contains "-" p = false ∧ s = p) ∨ ∃ pre, p = pre +:+ String "-" s).

(** m is the largest number parsed from the suffixes of the paths. *)
Definition is_max_checkpoint (paths : list string) (m : Z) : Prop :=
  (∃ p, p ∈ paths ∧ PyStr.int (Utils.checkpoint_suffix p) = Some m) ∧
  ∀ p n, p ∈ paths → PyStr.int (Utils.checkpoint_suffix p) = Some n → n ≤ m.

(** The events of one attempt with [tool]: the remove, and, unless the
    remove call raised, the copy after it. *)
Definition attempt_events (tool upload_dir gcs_bucket : string)
    (evs : list (event V)) : Prop :=
  ∃ r1, (is_ok r1 = false ∧
         evs = [Sys (Utils.rm_command tool upload_dir gcs_bucket) r1]) ∨
        (is_ok r1 = true ∧
         ∃ r2, evs = [Sys (Utils.rm_command tool upload_dir gcs_bucket) r1;
                      Sys (Utils.cp_command tool upload_dir gcs_bucket) r2]).

End Observations.

(** ** Scripted hosts

    A host that answers the i-th call of a run started on the empty
    history with the i-th entry of a script; os.system returns status 0
    once the script is exhausted. *)

Definition scripted_host (statuses : list (result Z)) (listing : list string) : Host unit :=
  {| host_system h _ := default (Ok 0) (statuses !! length h);
     host_exists _ _ := false;
     host_makedirs _ _ := Ok tt;
     host_glob _ _ := listing;
     host_format _ := "()";
     host_format_dict _ := "{}" |}.

(** A host whose shell answers by the tool named on the command line: one
    answer for an absolute tool path, another for a tool found through the
    search path. *)
Definition picky_host (absolute plain : result Z) : Host unit :=
  {| host_system _ cmd := if PyStr.startswith_sep cmd then absolute else plain;
     host_exists _ _ := true;
     host_makedirs _ _ := Ok tt;
     host_glob _ _ := [];
     host_format _ := "()";
     host_format_dict _ := "{}" |}.

(** ** Argument dictionaries *)

Section Arguments.

Context {V : Type}.

(** A dataclass instance, given by what dataclasses.asdict returns for it. *)
Record dataclass : Type := { asdict : gmap string V }.

(** d.update(other): the entries of [other] win. *)
Definition dict_update (d other : gmap string V) : gmap string V := other ∪ d.

Definition get_training_args (arguments_list : list dataclass) : result (gmap string V) :=
  let all_arguments :=
    foldl (λ acc arguments, dict_update acc (asdict arguments)) ∅ arguments_list in
  match all_arguments !! "evaluation_strategy" with
  | Some _ => Ok (delete "evaluation_strategy" all_arguments)
  | None => Raise (KeyError "evaluation_strategy")
  end.

(** The value of field k in the last element of the list that defines
    k, if any element does. *)
Fixpoint last_definition (k : string) (arguments_list : list dataclass) : option V :=
  match arguments_list with
  | [] => None
  | arguments :: rest =>
      match last_definition k rest with
      | Some v => Some v
      | None => asdict arguments !! k
      end
  end.

End Arguments.

Arguments dataclass : clear implicits.

(** ** The model object *)

Inductive module_class : Type :=
| AdapterController
| MetaAdapterController
| LayerNormHyperNet
| AdapterLayersHyperNetController
| T5LayerNorm.

Global Instance module_class_eq_dec : EqDecision module_class.
Proof. solve_decision. Defined.

(** Parameters are shared objects: a parameter is named by its identity,
    and one parameter may be registered in several modules. *)
Abbreviation param := nat (only parsing).

(** A torch module: the classes it is an instance of (among those the
    routines test for), the parameters registered on it directly, and its
    child modules. *)
Inductive module : Type :=
| Module (classes : list module_class) (own : list param) (children : list module).

(** module.parameters(): own parameters, then those of the children. *)
Fixpoint parameters (m : module) : list param :=
  match m with
  | Module _ own children => own ++ flat_map parameters children
  end.

(** module.named_modules(): the module itself, then its descendants. *)
Fixpoint named_modules (m : module) : list module :=
  match m with
  | Module _ _ children => m :: flat_map named_modules children
  end.

Definition classes_of (m : module) : list module_class :=
  match m with Module cs _ _ => cs end.

(** isinstance(m, (c1, ..., cn)) *)
Definition isinstance (m : module) (cs : list module_class) : bool :=
  existsb (λ c, bool_decide (c ∈ classes_of m)) cs.

(** model.task_embedding_controller.task_to_embeddings is a plain dict or
    a torch ParameterDict. *)
Inductive embeddings : Type :=
| PlainDict
| ParameterDict (m : module).

Record controller : Type := {
  controller_module : module;
  task_to_embeddings : embeddings
}.

Record model : Type := {
  (** reference to the configuration object *)
  config : nat;
  (** the model as a torch module *)
  as_module : module;
  lm_head : module;
  get_encoder : module;
  (** present only on models built with a meta-adapter configuration *)
  task_embedding_controller : option controller
}.

Module TrainingArgs.
Record t : Type := { train_adapters : bool }.
End TrainingArgs.

Module ModelArgs.
Record t : Type := {
  freeze_model : bool;
  freeze_model_but_lm_head : bool;
  freeze_embeds : bool;
  freeze_encoder : bool;
  freeze_model_but_task_embeddings : bool;
  unfreeze_lm_head : bool;
  unfreeze_layer_norms : bool
}.
End ModelArgs.

Module AdapterArgs.
Record t : Type := {
  adapter_config_name : option string;
  unique_hyper_net : bool;
  conditional_layer_norm_for_T5 : bool
}.
End AdapterArgs.

(** ** Configuration objects *)

Section Config.

Context {V : Type} (host : Host V).

Record task_dataset : Type := { task_specific_config : option (gmap string V) }.

(** seq2seq.data.TASK_MAPPING is not part of the sources at hand. *)
Variable TASK_MAPPING : gmap string task_dataset.

(** The configuration objects, by reference. *)
Abbreviation configs := (nat → gmap string V) (only parsing).

(** model.config = cfg: the attribute is rebound, no object changes. *)
Definition set_config (m : model) (cfg : nat) : model :=
  {| config := cfg; as_module := as_module m; lm_head := lm_head m;
     get_encoder := get_encoder m;
     task_embedding_controller := task_embedding_controller m |}.

(** Both routines return the model and the configuration objects as they
    are after the call. *)
Definition use_task_specific_params (m : model) (task : string) (σ : configs)
    : M V (model * (nat → gmap string V)) :=
  match TASK_MAPPING !! task with
  | None => raise (KeyError task)
  | Some task_dataset =>
      match task_specific_config task_dataset with
      | Some cfg =>
          Utils.logger_info ("using task specific params for " +:+ task +:+ ": "
                             +:+ host_format_dict host cfg) ;;
          mret (m, <[config m := dict_update (σ (config m)) cfg]> σ)
      | None => mret (m, σ)
      end
  end.

Definition reset_config (m : model) (cfg : nat) (σ : configs)
    : M V (model * (nat → gmap string V)) :=
  let m := set_config m cfg in
  Utils.logger_info "config is reset to the initial values." ;;
  mret (m, σ).

End Config.

Arguments task_dataset : clear implicits.

(** ** Freezing parameters *)

Abbreviation store := (param → bool) (only parsing).

(** for p in ps: p.requires_grad = b *)
Definition set_requires_grad (b : bool) (ps : list param) (σ : store) : store :=
  foldl (λ s p, <[p := b]> s) σ ps.

(** Modelled from the spec: freeze_params of third_party.utils, which is not
    part of the sources at hand.  It sets requires_grad False on every
    parameter of the module. *)
Definition freeze_params (m : module) (σ : store) : store :=
  set_requires_grad false (parameters m) σ.

(** Modelled from the spec: assert_all_frozen of third_party.utils, which is
    not part of the sources at hand.  Its assertion fails when some
    parameter of the module requires a gradient. *)
Definition assert_all_frozen (m : module) (σ : store) : result unit :=
  if existsb σ (parameters m) then Raise AssertionError else Ok tt.

(** for name, sub_module in root.named_modules():
        if isinstance(sub_module, cs):
            for param_name, param in sub_module.named_parameters():
                param.requires_grad = True *)
Definition unfreeze_instances (cs : list module_class) (root : module) (σ : store) : store :=
  foldl (λ s sub, if isinstance sub cs then set_requires_grad true (parameters sub) s else s)
        σ (named_modules root).

Definition is_meta_adapter (adapter_args : AdapterArgs.t) : bool :=
  bool_decide (AdapterArgs.adapter_config_name adapter_args = Some "meta-adapter").

Definition the_controller (m : model) : result controller :=
  match task_embedding_controller m with
  | Some c => Ok c
  | None => Raise (AttributeError "task_embedding_controller")
  end.

(** p is a parameter of some module of the tree below [root] that is an
    instance of one of the classes [cs]. *)
Definition in_instance_of (cs : list module_class) (root : module) (p : param) : bool :=
  existsb (λ sub, isinstance sub cs && bool_decide (p ∈ parameters sub))
          (named_modules root).

Definition in_controller (m : model) (p : param) : bool :=
  match task_embedding_controller m with
  | Some c => bool_decide (p ∈ parameters (controller_module c))
  | None => false
  end.

(** The parameters that adapter training leaves trainable. *)
Definition trainable_pattern (m : model) (adapter_args : AdapterArgs.t) (p : param) : bool :=
  in_instance_of [AdapterController; MetaAdapterController] (as_module m) p
  || (is_meta_adapter adapter_args && in_controller m p)
  || (AdapterArgs.unique_hyper_net adapter_args
      && in_instance_of [AdapterLayersHyperNetController] (as_module m) p).

(** train_adapters is set and every freeze or unfreeze flag of the model
    arguments is off. *)
Definition only_train_adapters (training_args : TrainingArgs.t)
    (model_args : ModelArgs.t) : Prop :=
  TrainingArgs.train_adapters training_args = true ∧
  ModelArgs.freeze_model model_args = false ∧
  ModelArgs.freeze_model_but_lm_head model_args = false ∧
  ModelArgs.freeze_embeds model_args = false ∧
  ModelArgs.freeze_encoder model_args = false ∧
  ModelArgs.freeze_model_but_task_embeddings model_args = false ∧
  ModelArgs.unfreeze_lm_head model_args = false ∧
  ModelArgs.unfreeze_layer_norms model_args = false.

Section Freezing.

(** freeze_embeds of third_party.utils is not part of the sources at
    hand. *)
Variable freeze_embeds : model → store → result store.

Definition train_adapters_branch (m : model) (training_args : TrainingArgs.t)
    (adapter_args : AdapterArgs.t) (σ : store) : result store :=
  if TrainingArgs.train_adapters training_args then
    let σ := freeze_params (as_module m) σ in
    let σ := unfreeze_instances [MetaAdapterController; AdapterController] (as_module m) σ in
    σ ← (if is_meta_adapter adapter_args then
           c ← the_controller m;
           Ok (set_requires_grad true (parameters (controller_module c)) σ)
         else Ok σ);
    Ok (if AdapterArgs.unique_hyper_net adapter_args then
          unfreeze_instances [AdapterLayersHyperNetController; AdapterController]
                             (as_module m) σ
        else σ)
  else Ok σ.

Definition freeze_model_branch (m : model) (model_args : ModelArgs.t) (σ : store) : store :=
  if ModelArgs.freeze_model model_args then freeze_params (as_module m) σ else σ.

Definition freeze_model_but_lm_head_branch (m : model) (model_args : ModelArgs.t)
    (σ : store) : store :=
  if ModelArgs.freeze_model_but_lm_head model_args then
    set_requires_grad true (parameters (lm_head m)) (freeze_params (as_module m) σ)
  else σ.

Definition freeze_embeds_branch (m : model) (model_args : ModelArgs.t) (σ : store)
    : result store :=
  if ModelArgs.freeze_embeds model_args then freeze_embeds m σ else Ok σ.

Definition freeze_encoder_branch (m : model) (model_args : ModelArgs.t) (σ : store)
    : result store :=
  if ModelArgs.freeze_encoder model_args then
    let σ := freeze_params (get_encoder m) σ in
    assert_all_frozen (get_encoder m) σ ;;
    Ok σ
  else Ok σ.

Definition freeze_model_but_task_embeddings_branch (m : model) (model_args : ModelArgs.t)
    (adapter_args : AdapterArgs.t) (σ : store) : result store :=
  if ModelArgs.freeze_model_but_task_embeddings model_args then
    let σ := freeze_params (as_module m) σ in
    if is_meta_adapter adapter_args then
      c ← the_controller m;
      match task_to_embeddings c with
      | PlainDict => Ok σ
      | ParameterDict e => Ok (set_requires_grad true (parameters e) σ)
      end
    else Ok σ
  else Ok σ.

Definition unfreeze_lm_head_branch (m : model) (model_args : ModelArgs.t) (σ : store)
    : store :=
  if ModelArgs.unfreeze_lm_head model_args then
    set_requires_grad true (parameters (lm_head m)) σ
  else σ.

Definition unfreeze_layer_norms_branch (m : model) (model_args : ModelArgs.t) (σ : store)
    : store :=
  if ModelArgs.unfreeze_layer_norms model_args then
    unfreeze_instances [T5LayerNorm] (as_module m) σ
  else σ.

Definition conditional_layer_norm_branch (m : model) (adapter_args : AdapterArgs.t)
    (σ : store) : store :=
  if AdapterArgs.conditional_layer_norm_for_T5 adapter_args then
    unfreeze_instances [LayerNormHyperNet] (as_module m) σ
  else σ.

Definition freezing_params (m : model) (training_args : TrainingArgs.t)
    (model_args : ModelArgs.t) (adapter_args : AdapterArgs.t) (σ : store) : result store :=
  σ ← train_adapters_branch m training_args adapter_args σ;
  let σ := freeze_model_branch m model_args σ in
  let σ := freeze_model_but_lm_head_branch m model_args σ in
  σ ← freeze_embeds_branch m model_args σ;
  σ ← freeze_encoder_branch m model_args σ;
  σ ← freeze_model_but_task_embeddings_branch m model_args adapter_args σ;
  let σ := unfreeze_lm_head_branch m model_args σ in
  let σ := unfreeze_layer_norms_branch m model_args σ in
  Ok (conditional_layer_norm_branch m adapter_args σ).

End Freezing.

(** ** Sample models and arguments *)

Definition plain_module (own : list param) : module := Module [] own [].

(** A model with one adapter and one conditional layer norm next to two
    ordinary layers; parameter 5 is shared by the encoder and the head. *)
Definition sample_model : model :=
  {| config := 0%nat;
     as_module :=
       Module [] [0%nat]
         [ Module [AdapterController] [1%nat] [plain_module [2%nat]];
           Module [LayerNormHyperNet] [3%nat] [];
           plain_module [4%nat; 5%nat];
           plain_module [5%nat; 6%nat] ];
     lm_head := plain_module [5%nat; 6%nat];
     get_encoder := plain_module [4%nat; 5%nat];
     task_embedding_controller := None |}.

Definition model_flags_off : ModelArgs.t :=
  {| ModelArgs.freeze_model := false;
     ModelArgs.freeze_model_but_lm_head := false;
     ModelArgs.freeze_embeds := false;
     ModelArgs.freeze_encoder := false;
     ModelArgs.freeze_model_but_task_embeddings := false;
     ModelArgs.unfreeze_lm_head := false;
     ModelArgs.unfreeze_layer_norms := false |}.


Definition training_adapters : TrainingArgs.t :=
  {| TrainingArgs.train_adapters := true |}.

Definition adapter_flags (conditional_layer_norm : bool) : AdapterArgs.t :=
  {| AdapterArgs.adapter_config_name := Some "adapter";
     AdapterArgs.unique_hyper_net := false;
     AdapterArgs.conditional_layer_norm_for_T5 := conditional_layer_norm |}.

Definition all_trainable : store := λ _, true.

(** A stand-in for freeze_embeds, which the samples never call. *)
Definition no_freeze_embeds (m : model) (σ : store) : result store := Ok σ.

(** A listing with three checkpoints. *)
Definition sample_listing : list string :=
  ["out/checkpoint-5"; "out/checkpoint-12"; "out/checkpoint-7"].

Definition sample_arguments : list (dataclass Z) :=
  [ {| asdict := {["learning_rate" := 1; "evaluation_strategy" := 2]} |};
    {| asdict := {["learning_rate" := 3; "seed" := 42]} |} ].

Definition sample_tasks : gmap string (task_dataset unit) :=
  {["rte" := {| task_specific_config := Some {["max_length" := tt]} |};
    "mnli" := {| task_specific_config := None |}]}.

(** ** The checkpoint callback *)

Module Callback.

(** The fields of the trainer's arguments and state that on_save reads. *)
Record args : Type := { output_dir : string; gcs_bucket : option string }.
Record state : Type := { is_world_process_zero : bool }.

End Callback.

(** T5CheckpointCallback.on_save(args, state, control) *)
Definition on_save {V : Type} (host : Host V) (args : Callback.args)
    (state : Callback.state) : M V unit :=
  if Callback.is_world_process_zero state then
    match Callback.gcs_bucket args with
    | Some bucket => Utils.upload host (Callback.output_dir args) bucket
    | None => mret tt
    end
  else mret tt.

(** The four command lines of upload. *)
Definition upload_commands (upload_dir gcs_bucket : string) : list string :=
  [ Utils.rm_command Utils.primary_tool upload_dir gcs_bucket;
    Utils.cp_command Utils.primary_tool upload_dir gcs_bucket;
    Utils.rm_command Utils.fallback_tool upload_dir gcs_bucket;
    Utils.cp_command Utils.fallback_tool upload_dir gcs_bucket ].

(** The command line of an os.system event. *)
Definition command_of {V : Type} (e : event V) : option string :=
  match e with Sys cmd _ => Some cmd | _ => None end.

(** ** What freezing_params does to one parameter

    Every branch of freezing_params either forces the flag of a parameter to
    a value that the model and the arguments fix, or leaves it alone. *)

Definition forced (applies value : bool) : option bool :=
  if applies then Some value else None.

(** The later branch has the last word. *)
Definition over (later earlier : option bool) : option bool :=
  match later with Some c => Some c | None => earlier end.

Definition is_param_of (root : module) (p : param) : bool :=
  bool_decide (p ∈ parameters root).

Definition in_embeddings (m : model) (p : param) : bool :=
  match task_embedding_controller m with
  | Some c => match task_to_embeddings c with
              | ParameterDict e => is_param_of e p
              | PlainDict => false
              end
  | None => false
  end.

Definition train_adapters_effect (m : model) (training_args : TrainingArgs.t)
    (adapter_args : AdapterArgs.t) (p : param) : option bool :=
  if TrainingArgs.train_adapters training_args then
    over (forced (AdapterArgs.unique_hyper_net adapter_args &&
                  in_instance_of [AdapterLayersHyperNetController; AdapterController]
                                 (as_module m) p) true)
   (over (forced (is_meta_adapter adapter_args && in_controller m p) true)
   (over (forced (in_instance_of [MetaAdapterController; AdapterController]
                                 (as_module m) p) true)
         (forced (is_param_of (as_module m) p) false)))
  else None.

Definition freeze_model_effect (m : model) (model_args : ModelArgs.t) (p : param)
    : option bool :=
  forced (ModelArgs.freeze_model model_args && is_param_of (as_module m) p) false.

Definition freeze_model_but_lm_head_effect (m : model) (model_args : ModelArgs.t)
    (p : param) : option bool :=
  if ModelArgs.freeze_model_but_lm_head model_args then
    over (forced (is_param_of (lm_head m) p) true)
         (forced (is_param_of (as_module m) p) false)
  else None.

Definition freeze_encoder_effect (m : model) (model_args : ModelArgs.t) (p : param)
    : option bool :=
  forced (ModelArgs.freeze_encoder model_args && is_param_of (get_encoder m) p) false.

Definition freeze_model_but_task_embeddings_effect (m : model) (model_args : ModelArgs.t)
    (adapter_args : AdapterArgs.t) (p : param) : option bool :=
  if ModelArgs.freeze_model_but_task_embeddings model_args then
    over (forced (is_meta_adapter adapter_args && in_embeddings m p) true)
         (forced (is_param_of (as_module m) p) false)
  else None.

Definition unfreeze_lm_head_effect (m : model) (model_args : ModelArgs.t) (p : param)
    : option bool :=
  forced (ModelArgs.unfreeze_lm_head model_args && is_param_of (lm_head m) p) true.

Definition unfreeze_layer_norms_effect (m : model) (model_args : ModelArgs.t) (p : param)
    : option bool :=
  forced (ModelArgs.unfreeze_layer_norms model_args &&
          in_instance_of [T5LayerNorm] (as_module m) p) true.

Definition conditional_layer_norm_effect (m : model) (adapter_args : AdapterArgs.t)
    (p : param) : option bool :=
  forced (AdapterArgs.conditional_layer_norm_for_T5 adapter_args &&
          in_instance_of [LayerNormHyperNet] (as_module m) p) true.

(** The branches in the order of the source, the last one outermost; the
    branch of freeze_embeds is left out. *)
Definition freezing_effect (m : model) (training_args : TrainingArgs.t)
    (model_args : ModelArgs.t) (adapter_args : AdapterArgs.t) (p : param) : option bool :=
  over (conditional_layer_norm_effect m adapter_args p)
 (over (unfreeze_layer_norms_effect m model_args p)
 (over (unfreeze_lm_head_effect m model_args p)
 (over (freeze_model_but_task_embeddings_effect m model_args adapter_args p)
 (over (freeze_encoder_effect m model_args p)
 (over (freeze_model_but_lm_head_effect m model_args p)
 (over (freeze_model_effect m model_args p)
       (train_adapters_effect m training_args adapter_args p))))))).

(** The branches that read model.task_embedding_controller. *)
Definition needs_controller (training_args : TrainingArgs.t) (model_args : ModelArgs.t)
    (adapter_args : AdapterArgs.t) : bool :=
  is_meta_adapter adapter_args &&
  (TrainingArgs.train_adapters training_args ||
   ModelArgs.freeze_model_but_task_embeddings model_args).

(** Every parameter freezing_params can reach through the model. *)
Definition reachable_parameters (m : model) : list param :=
  parameters (as_module m) ++ parameters (lm_head m) ++ parameters (get_encoder m) ++
  match task_embedding_controller m with
  | Some c => parameters (controller_module c) ++
              match task_to_embeddings c with
              | ParameterDict e => parameters e
              | PlainDict => []
              end
  | None => []
  end.

(** Model arguments with the given flags, in the order of the source. *)
Definition model_flags (freeze_model freeze_model_but_lm_head freeze_encoder
    freeze_model_but_task_embeddings unfreeze_lm_head unfreeze_layer_norms : bool)
    : ModelArgs.t :=
  {| ModelArgs.freeze_model := freeze_model;
     ModelArgs.freeze_model_but_lm_head := freeze_model_but_lm_head;
     ModelArgs.freeze_embeds := false;
     ModelArgs.freeze_encoder := freeze_encoder;
     ModelArgs.freeze_model_but_task_embeddings := freeze_model_but_task_embeddings;
     ModelArgs.unfreeze_lm_head := unfreeze_lm_head;
     ModelArgs.unfreeze_layer_norms := unfreeze_layer_norms |}.

Definition training_flags (train_adapters : bool) : TrainingArgs.t :=
  {| TrainingArgs.train_adapters := train_adapters |}.

(** The sample model with a task embedding controller whose embeddings are
    a ParameterDict. *)
Definition sample_meta_model : model :=
  {| config := 0%nat;
     as_module :=
       Module [] [0%nat]
         [ Module [MetaAdapterController] [1%nat] [];
           Module [T5LayerNorm] [2%nat] [];
           Module [] [7%nat] [plain_module [8%nat]];
           plain_module [4%nat; 5%nat];
           plain_module [5%nat; 6%nat] ];
     lm_head := plain_module [5%nat; 6%nat];
     get_encoder := plain_module [4%nat; 5%nat];
     task_embedding_controller :=
       Some {| controller_module := Module [] [7%nat] [plain_module [8%nat]];
               task_to_embeddings := ParameterDict (plain_module [8%nat]) |} |}.

Definition meta_adapter_flags : AdapterArgs.t :=
  {| AdapterArgs.adapter_config_name := Some "meta-adapter";
     AdapterArgs.unique_hyper_net := false;
     AdapterArgs.conditional_layer_norm_for_T5 := false |}.

(** * Proofs *)

(** ** Python strings on examples *)

Example join_rel : PyStr.os_path_join "gs://b" "out" = "gs://b/out".
Proof. reflexivity. Qed.
Example int_ex : PyStr.int " +1_0 " = Some 10.
Proof. reflexivity. Qed.
Example str_ex : PyStr.str 120 = "120".
Proof. reflexivity. Qed.
Example split_ex : PyStr.split "-" "a-b/checkpoint-12" = ["a"; "b/checkpoint"; "12"].
Proof. reflexivity. Qed.
Example join_absolute : PyStr.os_path_join "gs://b" "/out" = "/out".
Proof. reflexivity. Qed.
Example int_rejects_dot : PyStr.int "5.bak" = None.
Proof. reflexivity. Qed.
Example int_rejects_empty : PyStr.int "" = None.
Proof. reflexivity. Qed.
Example int_underscore : PyStr.int "1_0" = Some 10.
Proof. reflexivity. Qed.
Example int_double_underscore : PyStr.int "1__0" = None.
Proof. reflexivity. Qed.
Example int_sign_space : PyStr.int "+ 5" = None.
Proof. reflexivity. Qed.
Example int_file_separator :
  PyStr.int (String (ascii_of_nat 28) "5") = None.
Proof. reflexivity. Qed.
Example int_no_break_space :
  PyStr.int (String (ascii_of_nat 160) "5") = Some 5.
Proof. reflexivity. Qed.
Example suffix_ex : Utils.checkpoint_suffix "runs/a-b/checkpoint-12" = "12".
Proof. reflexivity. Qed.

(** ** upload *)

Section UploadProofs.

Context {V : Type} (host : Host V).
Implicit Types (d b : string) (h : history V).
Import Utils.

Lemma new_events_app h (evs : list (event V)) : new_events h (h ++ evs) = evs.
Proof. unfold new_events. by rewrite drop_app_length. Qed.

(** How the except block runs. *)
Lemma fallback_attempt_run d b h :
  let rm := rm_command fallback_tool d b in
  let cp := cp_command fallback_tool d b in
  let r3 := host_system host h rm in
  let r4 := host_system host (h ++ [Sys rm r3]) cp in
  fallback_attempt host d b h =
    match r3 with
    | Raise e => (Raise e, h ++ [Sys rm r3])
    | Ok _ => (match r4 with Ok _ => Ok tt | Raise e => Raise e end,
               h ++ [Sys rm r3; Sys cp r4])
    end.
Proof.
  cbv zeta. unfold fallback_attempt, mbind, M_bind, bind, os_system, mret, M_ret, ret.
  destruct (host_system host h _) as [n3|e3] eqn:E3; [|done].
  rewrite <- app_assoc. simpl.
  by destruct (host_system host _ (cp_command _ _ _)).
Qed.

(** How the try block runs. *)
Lemma primary_attempt_run d b h :
  let rm := rm_command primary_tool d b in
  let cp := cp_command primary_tool d b in
  let r1 := host_system host h rm in
  let r2 := host_system host (h ++ [Sys rm r1]) cp in
  primary_attempt host d b h =
    match r1 with
    | Raise e => (Raise e, h ++ [Sys rm r1])
    | Ok _ => (match r2 with
               | Ok n => if bool_decide (n ≠ 0) then Raise (Exception "gsutil path not found")
                         else Ok tt
               | Raise e => Raise e
               end, h ++ [Sys rm r1; Sys cp r2])
    end.
Proof.
  cbv zeta. unfold primary_attempt, mbind, M_bind, bind, os_system, mret, M_ret, ret, raise.
  destruct (host_system host h _) as [n1|e1] eqn:E1; [|done].
  rewrite <- app_assoc. simpl.
  destruct (host_system host _ (cp_command _ _ _)) as [n2|e2]; [|done].
  by case_bool_decide.
Qed.

Lemma upload_run d b h :
  upload host d b h =
    match primary_attempt host d b h with
    | (Ok a, h') => (Ok a, h')
    | (Raise _, h') => fallback_attempt host d b h'
    end.
Proof. reflexivity. Qed.

Lemma tools_differ d b d' b' :
  rm_command fallback_tool d b ≠ rm_command primary_tool d' b' ∧
  rm_command fallback_tool d b ≠ cp_command primary_tool d' b' ∧
  cp_command fallback_tool d b ≠ rm_command primary_tool d' b' ∧
  cp_command fallback_tool d b ≠ cp_command primary_tool d' b'.
Proof. repeat split; discriminate. Qed.

Lemma rm_is_not_cp tool d b d' b' : rm_command tool d b ≠ cp_command tool d' b'.
Proof.
  unfold rm_command, cp_command.
  induction tool as [|c tool IH]; simpl; [discriminate|].
  intros E. injection E as E. auto.
Qed.

(** Case analysis on what the host answers to the four commands. *)
Ltac upload_cases d b h :=
  rewrite upload_run, primary_attempt_run; cbv zeta;
  destruct (host_system host h (rm_command primary_tool d b)) as [?n1|?e1];
  [ destruct (host_system host _ (cp_command primary_tool d b)) as [?n2|?e2];
    [ case_bool_decide | ] | ];
  try (rewrite fallback_attempt_run; cbv zeta;
       destruct (host_system host _ (rm_command fallback_tool d b)) as [?n3|?e3];
       [ destruct (host_system host _ (cp_command fallback_tool d b)) as [?n4|?e4] | ]);
  cbn [fst snd]; rewrite <- ?app_assoc; cbn [app]; rewrite ?new_events_app.

Ltac upload_facts d b :=
  unfold fallback_ran, primary_raised, primary_rm_failed_alone, attempt_events, ran;
  pose proof (tools_differ d b d b) as (?&?&?&?);
  pose proof (rm_is_not_cp primary_tool d b d b);
  pose proof (rm_is_not_cp fallback_tool d b d b).

Ltac attempt_shape :=
  first [ by eexists (Ok _); right; split; [done|]; eexists
        | by eexists (Raise _); left ].

(** The events of a run of upload: one attempt with the absolute tool
    path, followed, when that attempt raised, by one attempt with the
    plain tool name.  Within an attempt the remove comes first. *)
Lemma upload_attempts d b h :
  snd (upload host d b h) = h ++ new_events h (snd (upload host d b h)) ∧
  ∃ P F, new_events h (snd (upload host d b h)) = P ++ F ∧
         attempt_events primary_tool d b P ∧
         (F = [] ∨ attempt_events fallback_tool d b F).
Proof.
  upload_cases d b h; (split; [done|]); unfold attempt_events.
  all: first
    [ eexists [_; _], []; split; [done|]; split; [attempt_shape | by left]
    | eexists [_; _], [_; _]; split; [done|]; split; [attempt_shape | right; attempt_shape]
    | eexists [_; _], [_]; split; [done|]; split; [attempt_shape | right; attempt_shape]
    | eexists [_], [_; _]; split; [done|]; split; [attempt_shape | right; attempt_shape]
    | eexists [_], [_]; split; [done|]; split; [attempt_shape | right; attempt_shape] ].
Qed.

(** A run of upload makes two, three or four os.system calls. *)
Lemma upload_event_count d b h :
  ∃ evs, snd (upload host d b h) = h ++ evs ∧ (2 ≤ length evs ≤ 4)%nat.
Proof.
  upload_cases d b h; eexists; (split; [reflexivity|]); cbn; lia.
Qed.

(** C1, as amended.  The retry with the plain tool name is made exactly
    when the try block ended in an exception, that is when one of its
    os.system calls raised or its copy returned a nonzero status.  The
    status of the first remove is not looked at: a nonzero status of the
    remove alone, the copy returning 0, does not lead to a retry. *)
Theorem upload_fallback_iff d b h :
  let evs := new_events h (snd (upload host d b h)) in
  (fallback_ran d b evs ↔ primary_raised d b evs) ∧
  (primary_rm_failed_alone d b evs → ¬ fallback_ran d b evs).
Proof.
  cbv zeta. upload_cases d b h; upload_facts d b; set_unfold; naive_solver.
Qed.

(** C2.  No exception of the try block leaves upload.  When the try block
    raises, the same remove-then-copy sequence is run again with the plain
    tool name; an exception that does leave upload was raised by one of
    the two os.system calls of that retry; and whenever those two calls
    return an exit status, whatever its value, upload returns None. *)
Theorem upload_swallows_primary_errors d b h :
  let evs := new_events h (snd (upload host d b h)) in
  (primary_raised d b evs →
     ∃ P F, evs = P ++ F ∧ attempt_events primary_tool d b P ∧
            attempt_events fallback_tool d b F) ∧
  (∀ e, fst (upload host d b h) = Raise e →
     ∃ pre cmd, evs = pre ++ [Sys cmd (Raise e)] ∧
                (cmd = rm_command fallback_tool d b ∨
                 cmd = cp_command fallback_tool d b)) ∧
  ((∀ h', is_ok (host_system host h' (rm_command fallback_tool d b)) = true ∧
          is_ok (host_system host h' (cp_command fallback_tool d b)) = true) →
   fst (upload host d b h) = Ok tt).
Proof.
  cbv zeta. split; [|split].
  - upload_cases d b h; unfold attempt_events.
    all: first
      [ intros _; eexists [_; _], [_; _]; split; [done|]; split; attempt_shape
      | intros _; eexists [_; _], [_]; split; [done|]; split; attempt_shape
      | intros _; eexists [_], [_; _]; split; [done|]; split; attempt_shape
      | intros _; eexists [_], [_]; split; [done|]; split; attempt_shape
      | upload_facts d b; set_unfold; naive_solver ].
  - intros e. upload_cases d b h; try done.
    all: intros [= <-].
    all: first [ by eexists [_; _; _], _; split; [done|auto]
               | by eexists [_; _], _; split; [done|auto]
               | by eexists [_], _; split; [done|auto] ].
  - intros Hok.
    rewrite upload_run, primary_attempt_run; cbv zeta.
    assert (∀ h', fst (fallback_attempt host d b h') = Ok tt) as Hfb.
    { intros h'. rewrite fallback_attempt_run; cbv zeta.
      destruct (Hok h') as [H3 _].
      destruct (host_system host h' (rm_command fallback_tool d b)); [|done].
      destruct (Hok (h' ++ [Sys (rm_command fallback_tool d b) (Ok a)])) as [_ H4].
      by destruct (host_system host _ (cp_command fallback_tool d b)). }
    destruct (host_system host h (rm_command primary_tool d b)) as [?n1|?e1];
      [ destruct (host_system host _ (cp_command primary_tool d b)) as [?n2|?e2];
        [ case_bool_decide | ] | ]; try apply Hfb. done.
Qed.

(** C3, at an absolute upload_dir.  os.path.join discards the gs://bucket
    prefix, so the remove and the copy are given the local directory as
    their remote path. *)
Theorem upload_absolute_dir_loses_bucket h :
  remote_path "/out" "b" = "/out" ∧
  ∃ r evs,
    new_events h (snd (upload host "/out" "b" h)) =
      Sys "/root/google-cloud-sdk/bin/gsutil -m rm -r /out" r :: evs ∧
    (is_ok r = true →
     ∃ r' evs', evs = Sys "/root/google-cloud-sdk/bin/gsutil -m cp -r /out /out" r' :: evs').
Proof.
  split; [done|].
  upload_cases "/out" "b" h; eexists _, _; (split; [reflexivity|]);
    intros; try done; by eexists _, _.
Qed.

(** An absolute upload_dir is its own remote path, whatever the bucket. *)
Lemma remote_path_absolute d b :
  PyStr.startswith_sep d = true → remote_path d b = d.
Proof. intros Hd. unfold remote_path, PyStr.os_path_join. by rewrite Hd. Qed.

Lemma endswith_sep_app a b :
  PyStr.is_empty b = false → PyStr.endswith_sep (a +:+ b) = PyStr.endswith_sep b.
Proof.
  intros Hb. induction a as [|c a IH]; [done|].
  cbn [String.append]. simpl. destruct (a +:+ b) eqn:E; [|exact IH].
  destruct a; [|done]. destruct b; [done|by simpl in E].
Qed.

(** When upload_dir is relative and the bucket name is not empty and does
    not end in a slash, the remote path is gs://bucket/upload_dir. *)
Lemma remote_path_relative d b :
  PyStr.startswith_sep d = false →
  PyStr.is_empty b = false →
  PyStr.endswith_sep b = false →
  remote_path d b = "gs://" +:+ b +:+ "/" +:+ d.
Proof.
  intros Hd Hb Hb'. unfold remote_path, PyStr.os_path_join. rewrite Hd.
  by rewrite endswith_sep_app, Hb'.
Qed.

End UploadProofs.

(** ** save_json_file and handle_metrics *)

Section MetricsProofs.

Context {V : Type} (host : Host V).
Implicit Types (h : history V) (metrics json_dict : gmap string V).
Import Utils.

Lemma upload_uses_shell d b h :
  shell_used (new_events h (snd (upload host d b h))).
Proof.
  destruct (upload_attempts host d b h) as (_ & P & F & -> & [r1 HP] & _).
  exists (rm_command primary_tool d b), r1.
  destruct HP as [[_ ->]|[_ [r2 ->]]]; apply list_elem_of_here.
Qed.

Lemma upload_extends d b h :
  ∃ evs, snd (upload host d b h) = h ++ evs.
Proof. destruct (upload_attempts host d b h) as [E _]. eauto. Qed.

Lemma save_json_file_run json_dict outfile_name output_dir gcs_bucket h :
  save_json_file host json_dict outfile_name output_dir gcs_bucket h =
    let h1 := h ++ [SaveJson json_dict (PyStr.os_path_join output_dir outfile_name)] in
    match gcs_bucket with
    | Some bucket =>
        upload host output_dir bucket
          (h1 ++ [Log "***** Uploading results into gs-bucket *****"])
    | None => (Ok tt, h1)
    end.
Proof. by destruct gcs_bucket. Qed.

(** Every key the loop of handle_metrics visits is a key of metrics. *)
Lemma sorted_keys_lookup metrics key :
  key ∈ sorted_keys metrics → is_Some (metrics !! key).
Proof.
  unfold sorted_keys. rewrite merge_sort_Permutation.
  intros ((k & v) & -> & Hkv)%list_elem_of_fmap.
  apply elem_of_map_to_list in Hkv. eauto.
Qed.

Lemma sorted_keys_sorted metrics : Sorted String.le (sorted_keys metrics).
Proof. unfold sorted_keys. apply Sorted_merge_sort. apply _. Qed.

Lemma sorted_keys_elem_of metrics key :
  key ∈ sorted_keys metrics ↔ is_Some (metrics !! key).
Proof.
  split; [apply sorted_keys_lookup|].
  intros [v Hv]. unfold sorted_keys. rewrite merge_sort_Permutation.
  apply list_elem_of_fmap. exists (key, v). split; [done|].
  by apply elem_of_map_to_list.
Qed.

Lemma metric_lines_are_logs metrics keys (logs : list (event V)) :
  metric_lines (host_format host) metrics keys logs →
  Forall is_log logs ∧ length logs = length keys.
Proof.
  intros H. split; [|symmetry; by eapply Forall2_length].
  induction H as [|key e keys logs (v & _ & ->) _ IH]; by constructor.
Qed.

Lemma log_loop_run metrics (keys : list string) h :
  (∀ key, key ∈ keys → is_Some (metrics !! key)) →
  ∃ logs, metric_lines (host_format host) metrics keys logs ∧
    for_each keys
      (λ key, match metrics !! key with
              | Some v => logger_info ("  " +:+ key +:+ " = " +:+ host_format host v)
              | None => raise (KeyError key)
              end) h = (Ok tt, h ++ logs).
Proof.
  revert h. induction keys as [|key keys IH]; intros h Hkeys.
  - exists []. split; [constructor|]. by rewrite app_nil_r.
  - destruct (Hkeys key) as [v Hv]; [apply list_elem_of_here|].
    cbn [for_each]. unfold bind at 1. rewrite Hv. unfold logger_info at 1.
    destruct (IH (h ++ [Log ("  " +:+ key +:+ " = " +:+ host_format host v)]))
      as (logs & Hlogs & ->).
    { intros k Hk. apply Hkeys. by apply list_elem_of_further. }
    exists (Log ("  " +:+ key +:+ " = " +:+ host_format host v) :: logs).
    split; [constructor; eauto|].
    by rewrite <- app_assoc.
Qed.

(** handle_metrics logs its heading and one line per key, in sorted
    order, and then is save_json_file. *)
Lemma handle_metrics_run split metrics output_dir gcs_bucket h :
  ∃ lines, metric_lines (host_format host) metrics (sorted_keys metrics) lines ∧
    handle_metrics host split metrics output_dir gcs_bucket h =
      save_json_file host metrics (split +:+ "_results.json") output_dir gcs_bucket
                     (h ++ Log ("***** " +:+ split +:+ " metrics *****") :: lines).
Proof.
  destruct (log_loop_run metrics (sorted_keys metrics)
              (h ++ [Log ("***** " +:+ split +:+ " metrics *****")]))
    as (logs & Hlogs & Hrun).
  { apply sorted_keys_lookup. }
  exists logs. split; [done|].
  unfold handle_metrics, mbind, M_bind, bind at 1. unfold logger_info at 1.
  unfold bind at 1. rewrite Hrun. by rewrite <- app_assoc.
Qed.

Lemma sorted_keys_length metrics : length (sorted_keys metrics) = size metrics.
Proof.
  unfold sorted_keys.
  by rewrite merge_sort_Permutation, length_map, length_map_to_list.
Qed.

(** C6.  save_json_file writes json_dict at os.path.join(output_dir,
    outfile_name) and then runs upload(output_dir, gcs_bucket) exactly when
    gcs_bucket is not None; handle_metrics, after its log lines, is
    save_json_file on metrics and the file name split + "_results.json". *)
Theorem save_json_file_spec json_dict outfile_name output_dir gcs_bucket h :
  let run := save_json_file host json_dict outfile_name output_dir gcs_bucket h in
  let h1 := h ++ [SaveJson json_dict (PyStr.os_path_join output_dir outfile_name)] in
  (∃ evs, snd run = h1 ++ evs) ∧
  run = match gcs_bucket with
        | Some bucket =>
            upload host output_dir bucket
              (h1 ++ [Log "***** Uploading results into gs-bucket *****"])
        | None => (Ok tt, h1)
        end ∧
  (shell_used (new_events h (snd run)) ↔ gcs_bucket ≠ None) ∧
  ∀ split, ∃ logs, Forall is_log logs ∧
    handle_metrics host split json_dict output_dir gcs_bucket h =
      save_json_file host json_dict (split +:+ "_results.json") output_dir gcs_bucket
                     (h ++ logs).
Proof.
  cbv zeta. rewrite save_json_file_run. cbv zeta.
  split; [|split; [done|split]].
  - destruct gcs_bucket as [bucket|].
    + destruct (upload_extends output_dir bucket
                  ((h ++ [SaveJson json_dict (PyStr.os_path_join output_dir outfile_name)])
                     ++ [Log "***** Uploading results into gs-bucket *****"]))
        as [evs ->].
      eexists. by rewrite <- (app_assoc _ [_] evs).
    + exists []. by rewrite app_nil_r.
  - destruct gcs_bucket as [bucket|].
    + split; [done|]. intros _.
      set (h2 := (h ++ _) ++ _).
      destruct (upload_uses_shell output_dir bucket h2) as (cmd & r & Hin).
      destruct (upload_extends output_dir bucket h2) as [evs Hevs].
      rewrite Hevs in Hin |- *. rewrite new_events_app in Hin.
      subst h2. rewrite <- !app_assoc. rewrite new_events_app.
      exists cmd, r. set_solver.
    + split; [|done]. cbn [snd]. rewrite new_events_app.
      intros (cmd & r & Hin). set_unfold. naive_solver.
  - intros split.
    destruct (handle_metrics_run split json_dict output_dir gcs_bucket h)
      as (lines & Hlines & Hrun).
    eexists. split; [|exact Hrun].
    constructor; [done|]. by eapply metric_lines_are_logs.
Qed.

End MetricsProofs.

(** ** int() and the strings it accepts *)

Section IntProofs.

Import PyStr.
Implicit Types (cs ws : list ascii) (c : ascii).

Lemma digit_not_space c : is_digit c = true → is_space c = false.
Proof.
  unfold is_digit, is_space. intros H.
  apply andb_true_iff in H as [H1 H2].
  apply Nat.leb_le in H1. apply Nat.leb_le in H2.
  repeat (apply orb_false_iff; split).
  - apply andb_false_iff. right. apply Nat.leb_gt. lia.
  - apply Nat.eqb_neq. lia.
  - apply Nat.eqb_neq. lia.
  - apply Nat.eqb_neq. lia.
Qed.

Lemma digit_not_sign c : is_digit c = true → c ≠ "+"%char ∧ c ≠ "-"%char ∧ c ≠ "_"%char.
Proof. intros H. repeat split; intros ->; discriminate H. Qed.

Lemma digits_accepted body :
  digits body → ∀ acc prev, is_Some (int_digits acc prev body).
Proof.
  induction 1 as [c Hc|c r Hc _ IH|c r Hc _ IH]; intros acc prev; cbn [int_digits].
  - rewrite Hc. by eexists.
  - rewrite Hc. apply IH.
  - rewrite Hc. cbn. apply IH.
Qed.

Lemma accepted_digits cs :
  ∀ acc prev n, int_digits acc prev cs = Some n →
    if prev then cs = [] ∨ digits cs ∨ (∃ r, cs = "_"%char :: r ∧ digits r)
    else digits cs.
Proof.
  induction cs as [|c r IH]; intros acc prev n H; cbn [int_digits] in H.
  - destruct prev; [by left|done].
  - destruct (is_digit c) eqn:Hc.
    + apply IH in H. cbn beta iota in H.
      assert (digits (c :: r)) as Hd.
      { destruct H as [->|[H|(r' & -> & H)]];
          [by apply digits_one|by apply digits_more|by apply digits_underscore]. }
      destruct prev; auto.
    + case_bool_decide as Hu; [|done]. subst c.
      destruct prev; [|done]. apply IH in H. right; right. eauto.
Qed.

Lemma digits_ends body : digits body → ∃ c r, is_digit c = true ∧ body = r ++ [c].
Proof.
  induction 1 as [c Hc|c r Hc _ (c' & r' & Hc' & ->)|c r Hc _ (c' & r' & Hc' & ->)].
  - by exists c, [].
  - by exists c', (c :: r').
  - by exists c', (c :: "_"%char :: r').
Qed.

Lemma digits_starts body : digits body → ∃ c r, is_digit c = true ∧ body = c :: r.
Proof. destruct 1; eauto. Qed.

Lemma lstrip_spaces ws cs :
  Forall (λ c, is_space c = true) ws → lstrip (ws ++ cs) = lstrip cs.
Proof. induction 1 as [|c ws Hc _ IH]; [done|]. cbn. by rewrite Hc. Qed.

Lemma lstrip_decompose cs :
  ∃ ws, Forall (λ c, is_space c = true) ws ∧ cs = ws ++ lstrip cs.
Proof.
  induction cs as [|c cs (ws & Hws & IH)]; [by exists []|].
  cbn [lstrip]. destruct (is_space c) eqn:Hc.
  - exists (c :: ws). split; [by constructor|]. cbn [app]. by f_equal.
  - by exists [].
Qed.

Lemma lstrip_starts c cs : is_space c = false → lstrip (c :: cs) = c :: cs.
Proof. intros H. cbn. by rewrite H. Qed.

Lemma strip_decompose cs :
  ∃ ws1 ws2, Forall (λ c, is_space c = true) ws1 ∧ Forall (λ c, is_space c = true) ws2 ∧
             cs = ws1 ++ strip cs ++ ws2.
Proof.
  unfold strip.
  destruct (lstrip_decompose cs) as (ws1 & H1 & E1).
  destruct (lstrip_decompose (rev (lstrip cs))) as (ws2 & H2 & E2).
  exists ws1, (rev ws2). split; [done|]. split; [by apply Forall_rev|].
  rewrite <- rev_app_distr, <- E2, rev_involutive. exact E1.
Qed.

(** Stripping removes exactly the white space around a core that neither
    starts nor ends with white space. *)
Lemma strip_core ws1 ws2 c core c' rcore :
  Forall (λ c, is_space c = true) ws1 → Forall (λ c, is_space c = true) ws2 →
  is_space c = false → is_space c' = false →
  rev (c :: core) = c' :: rcore →
  strip (ws1 ++ (c :: core) ++ ws2) = c :: core.
Proof.
  intros H1 H2 Hc Hc' Hrev. unfold strip.
  rewrite lstrip_spaces by done.
  rewrite <- app_comm_cons, lstrip_starts by done.
  rewrite app_comm_cons, rev_app_distr, lstrip_spaces by by apply Forall_rev.
  rewrite Hrev, lstrip_starts by done.
  by rewrite <- Hrev, rev_involutive.
Qed.

(** int() parses exactly the strings of the grammar. *)
Lemma int_accepts s : is_Some (int s) ↔ decimal_integer s.
Proof.
  split.
  - intros [n Hn]. unfold int in Hn.
    destruct (strip_decompose (list_ascii_of_string s)) as (ws1 & ws2 & H1 & H2 & E).
    rewrite <- (string_of_list_ascii_of_string s), E.
    destruct (strip (list_ascii_of_string s)) as [|c r]; [done|].
    case_bool_decide as Hplus; [|case_bool_decide as Hminus].
    + subst c. apply accepted_digits in Hn.
      apply (decimal_integer_intro ws1 ["+"%char] r ws2); auto using sign_plus.
    + subst c. destruct (int_digits 0 false r) as [n'|] eqn:Hn'; [|done].
      apply accepted_digits in Hn'.
      apply (decimal_integer_intro ws1 ["-"%char] r ws2); auto using sign_minus.
    + apply accepted_digits in Hn.
      apply (decimal_integer_intro ws1 [] (c :: r) ws2); auto using sign_none.
  - intros [ws1 sg body ws2 H1 H2 Hsg Hbody]. unfold int.
    rewrite list_ascii_of_string_of_list_ascii.
    destruct (digits_starts body Hbody) as (c0 & r0 & Hc0 & E0).
    destruct (digits_ends body Hbody) as (c1 & r1 & Hc1 & E1).
    pose proof (digit_not_space c0 Hc0) as Hs0.
    pose proof (digit_not_space c1 Hc1) as Hs1.
    destruct (digit_not_sign c0 Hc0) as (Hp & Hm & _).
    destruct Hsg; cbn [app].
    + assert (rev (c0 :: r0) = c1 :: rev r1) as Hrev.
      { by rewrite <- E0, E1, rev_app_distr. }
      rewrite E0 at 1.
      rewrite (strip_core ws1 ws2 c0 r0 c1 (rev r1)) by done.
      rewrite !bool_decide_eq_false_2 by done.
      rewrite <- E0. by apply digits_accepted.
    + assert (rev ("+"%char :: body) = c1 :: rev r1 ++ ["+"%char]) as Hrev.
      { cbn [rev]. by rewrite E1, rev_app_distr. }
      change (ws1 ++ "+"%char :: body ++ ws2) with (ws1 ++ ("+"%char :: body) ++ ws2).
      rewrite (strip_core ws1 ws2 "+"%char body c1 _ H1 H2 eq_refl Hs1 Hrev).
      cbn. by apply digits_accepted.
    + assert (rev ("-"%char :: body) = c1 :: rev r1 ++ ["-"%char]) as Hrev.
      { cbn [rev]. by rewrite E1, rev_app_distr. }
      change (ws1 ++ "-"%char :: body ++ ws2) with (ws1 ++ ("-"%char :: body) ++ ws2).
      rewrite (strip_core ws1 ws2 "-"%char body c1 _ H1 H2 eq_refl Hs1 Hrev).
      cbn. destruct (digits_accepted body Hbody 0 false) as [n ->]. by eexists.
Qed.

Corollary int_rejects s : int s = None ↔ ¬ decimal_integer s.
Proof. rewrite <- int_accepts, <- eq_None_not_Some. done. Qed.

Lemma int_digits_nonneg cs :
  ∀ acc prev n, 0 ≤ acc → int_digits acc prev cs = Some n → 0 ≤ n.
Proof.
  induction cs as [|c r IH]; intros acc prev n Hacc H; cbn [int_digits] in H.
  - destruct prev; [|done]. by injection H as <-.
  - destruct (is_digit c).
    + eapply IH; [|exact H]. unfold digit_val. lia.
    + case_bool_decide; [|done]. destruct prev; [|done]. by eapply IH.
Qed.

Lemma contains_elem_of sep s :
  contains sep s = true ↔ sep ∈ list_ascii_of_string s.
Proof.
  induction s as [|c r IH]; cbn [contains list_ascii_of_string].
  - split; [done|]. by intros ?%elem_of_nil.
  - rewrite orb_true_iff, bool_decide_eq_true, elem_of_cons, IH. naive_solver.
Qed.

(** A string without a minus sign does not parse to a negative number. *)
Lemma int_nonneg s n : contains "-" s = false → int s = Some n → 0 ≤ n.
Proof.
  intros Hno Hn. unfold int in Hn.
  destruct (strip_decompose (list_ascii_of_string s)) as (ws1 & ws2 & _ & _ & E).
  destruct (strip (list_ascii_of_string s)) as [|c r]; [done|].
  case_bool_decide as Hplus; [by eapply int_digits_nonneg|].
  case_bool_decide as Hminus; [|by eapply int_digits_nonneg].
  subst c. apply not_true_iff_false in Hno. exfalso. apply Hno.
  apply contains_elem_of. rewrite E. set_solver.
Qed.

End IntProofs.

(** ** get_last_checkpoint_path *)

Section CheckpointProofs.

Context {V : Type} (host : Host V).
Implicit Types (h : history V) (paths : list string).
Import Utils.

(** s.split(sep)[-1] is the part of s after its last separator, or all of
    s when it has none. *)
Lemma split_last sep s :
  ∃ init lst, PyStr.split sep s = init ++ [lst] ∧
              PyStr.contains sep lst = false ∧
              (init = [] → s = lst) ∧
              (init ≠ [] → ∃ pre, s = pre +:+ String sep lst).
Proof.
  induction s as [|c r (init & lst & E & Hno & Hnil & Hcons)].
  - by exists [], "".
  - cbn [PyStr.split]. case_bool_decide as Hc.
    + subst c. exists ("" :: init), lst. rewrite E. repeat split; [done..|].
      intros _. destruct init as [|i0 init].
      * exists "". by rewrite <- Hnil.
      * destruct Hcons as [pre ->]; [done|]. by exists (String sep pre).
    + rewrite E. destruct init as [|i0 init]; cbn [app].
      * exists [], (String c lst). repeat split; [|by rewrite Hnil|done].
        cbn. by rewrite bool_decide_eq_false_2.
      * exists (String c i0 :: init), lst. repeat split; [done..|].
        intros _. destruct Hcons as [pre ->]; [done|]. by exists (String c pre).
Qed.

Lemma checkpoint_suffix_spec p :
  PyStr.contains "-" (checkpoint_suffix p) = false ∧
  (p = checkpoint_suffix p ∨ ∃ pre, p = pre +:+ "-" +:+ checkpoint_suffix p).
Proof.
  unfold checkpoint_suffix, PyStr.last_item.
  destruct (split_last "-"%char p) as (init & lst & -> & Hno & Hnil & Hcons).
  rewrite last_last. split; [done|].
  destruct init as [|i0 init]; [left; auto|right; by apply Hcons].
Qed.

(** No checkpoint number is negative: the suffix has no minus sign left. *)
Lemma checkpoint_number_nonneg p n :
  PyStr.int (checkpoint_suffix p) = Some n → 0 ≤ n.
Proof. apply int_nonneg, checkpoint_suffix_spec. Qed.

Lemma max_list_spec x l :
  max_list x l ∈ x :: l ∧ ∀ y, y ∈ x :: l → y ≤ max_list x l.
Proof.
  unfold max_list. revert x. induction l as [|a l IH]; intros x; cbn [fold_left].
  - split; [apply list_elem_of_here|]. intros y Hy. set_unfold. lia.
  - destruct (IH (Z.max x a)) as [Hin Hle]. split.
    + set_unfold. destruct Hin as [Hin|Hin]; [|auto].
      rewrite Hin. destruct (Z.max_spec x a) as [[_ ->]|[_ ->]]; auto.
    + intros y Hy. set_unfold.
      destruct Hy as [->|[->|Hy]]; [| |by apply Hle; right].
      * etrans; [apply (Z.le_max_l _ a)|]. apply Hle. by left.
      * etrans; [apply (Z.le_max_r x)|]. apply Hle. by left.
Qed.

Lemma checkpoint_numbers_ok paths :
  (∀ p, p ∈ paths → is_Some (PyStr.int (checkpoint_suffix p))) →
  ∃ l, checkpoint_numbers paths = Ok l ∧
       Forall2 (λ p n, PyStr.int (checkpoint_suffix p) = Some n) paths l.
Proof.
  induction paths as [|p paths IH]; intros Hall.
  - by exists [].
  - destruct (Hall p) as [n Hn]; [apply list_elem_of_here|].
    destruct IH as (l & E & Hl).
    { intros q Hq. apply Hall. by apply list_elem_of_further. }
    exists (n :: l). cbn [checkpoint_numbers]. rewrite Hn, E. split; [done|].
    by constructor.
Qed.

Lemma checkpoint_numbers_raise paths :
  (∃ p, p ∈ paths ∧ PyStr.int (checkpoint_suffix p) = None) →
  checkpoint_numbers paths = Raise ValueError.
Proof.
  induction paths as [|p paths IH]; intros (q & Hq & Hnone).
  - by apply elem_of_nil in Hq.
  - cbn [checkpoint_numbers].
    destruct (PyStr.int (checkpoint_suffix p)) as [n|] eqn:Hn; [|done].
    rewrite IH; [done|]. exists q. split; [|done].
    apply elem_of_cons in Hq as [->|Hq]; [congruence|done].
Qed.

Lemma get_last_checkpoint_path_run output_dir h :
  let paths := host_glob host h (PyStr.os_path_join output_dir "checkpoint-*") in
  get_last_checkpoint_path host output_dir h =
    (match paths with
     | [] => Ok output_dir
     | _ => match checkpoint_numbers paths with
            | Raise e => Raise e
            | Ok [] => Raise ValueError
            | Ok (c :: cs) =>
                Ok (PyStr.os_path_join output_dir
                      ("checkpoint-" +:+ PyStr.str (max_list c cs)))
            end
     end,
     h ++ [Glob (PyStr.os_path_join output_dir "checkpoint-*") paths]).
Proof.
  cbv zeta. unfold get_last_checkpoint_path, mbind, M_bind, bind, glob_glob.
  destruct (host_glob host h _) as [|p paths]; [done|].
  rewrite bool_decide_eq_false_2 by done.
  by destruct (checkpoint_numbers (p :: paths)) as [[|c cs]|e].
Qed.

Lemma string_app_cons (x : ascii) (a b : string) : String x a +:+ b = String x (a +:+ b).
Proof. reflexivity. Qed.

Lemma string_app_nil (b : string) : "" +:+ b = b.
Proof. reflexivity. Qed.

Lemma string_app_assoc (a b c : string) : (a +:+ b) +:+ c = a +:+ (b +:+ c).
Proof.
  induction a as [|x a IH]; [done|]. by rewrite !string_app_cons, IH.
Qed.

Lemma contains_app_sep sep pre s : PyStr.contains sep (pre +:+ String sep s) = true.
Proof.
  induction pre as [|c pre IH]; rewrite ?string_app_nil, ?string_app_cons; cbn [PyStr.contains].
  - by rewrite bool_decide_eq_true_2.
  - rewrite IH. apply orb_true_r.
Qed.

(** Of two ways to cut a string at a separator with nothing but
    separator-free text behind it, the text behind is the same. *)
Lemma after_last_sep_unique sep pre pre' s s' :
  PyStr.contains sep s = false → PyStr.contains sep s' = false →
  pre +:+ String sep s = pre' +:+ String sep s' → s = s'.
Proof.
  intros Hs Hs'. revert pre'.
  induction pre as [|c pre IH]; intros [|c' pre'];
    rewrite ?string_app_nil, ?string_app_cons; intros [= E].
  - done.
  - subst. by rewrite contains_app_sep in Hs.
  - subst. by rewrite contains_app_sep in Hs'.
  - by eapply IH.
Qed.

(** split('-')[-1] is the text after the last '-', and nothing else is. *)
Lemma checkpoint_suffix_after_last_dash p s :
  after_last_dash p s ↔ s = checkpoint_suffix p.
Proof.
  destruct (checkpoint_suffix_spec p) as [Hno Hcut]. split.
  - intros [Hs [[Hp ->]|[pre E]]].
    + destruct Hcut as [E|[pre E]]; [done|].
      rewrite E in Hp. change ("-" +:+ checkpoint_suffix p)
        with (String "-" (checkpoint_suffix p)) in Hp.
      by rewrite contains_app_sep in Hp.
    + destruct Hcut as [E'|[pre' E']].
      * rewrite <- E' in Hno. rewrite E in Hno. by rewrite contains_app_sep in Hno.
      * change ("-" +:+ checkpoint_suffix p)
          with (String "-" (checkpoint_suffix p)) in E'.
        exact (after_last_sep_unique "-"%char pre pre' s _ Hs Hno
                 (eq_trans (eq_sym E) E')).
  - intros ->. split; [done|]. destruct Hcut as [E|[pre E]].
    + left. split; [|done]. by rewrite E.
    + right. exists pre. exact E.
Qed.

(** C8.  The suffix the routine parses is the text of a path after its last
    '-'.  With no match of checkpoint-* the routine returns output_dir.
    With matches whose suffixes all parse, it returns
    os.path.join(output_dir, "checkpoint-" + str(m)) for the largest
    parsed number m.  It raises ValueError as soon as one suffix is not a
    decimal integer for int(). *)
Theorem get_last_checkpoint_path_spec output_dir h :
  let paths := host_glob host h (PyStr.os_path_join output_dir "checkpoint-*") in
  let returned := fst (get_last_checkpoint_path host output_dir h) in
  (∀ p s, after_last_dash p s ↔ s = checkpoint_suffix p) ∧
  (paths = [] → returned = Ok output_dir) ∧
  (paths ≠ [] →
   (∀ p, p ∈ paths → PyStr.decimal_integer (checkpoint_suffix p)) →
   ∃ m, is_max_checkpoint paths m ∧
        returned = Ok (PyStr.os_path_join output_dir ("checkpoint-" +:+ PyStr.str m))) ∧
  ((∃ p, p ∈ paths ∧ ¬ PyStr.decimal_integer (checkpoint_suffix p)) →
   returned = Raise ValueError).
Proof.
  cbv zeta. split; [apply checkpoint_suffix_after_last_dash|].
  rewrite get_last_checkpoint_path_run. cbv zeta. cbn [fst].
  set (paths := host_glob host h _). split; [|split].
  - by intros ->.
  - intros Hne Hall.
    destruct (checkpoint_numbers_ok paths) as (l & -> & Hl).
    { intros p Hp. apply int_accepts. by apply Hall. }
    destruct paths as [|p0 paths']; [done|].
    destruct l as [|c cs]; [by apply Forall2_length in Hl|].
    exists (max_list c cs). split; [|done].
    destruct (max_list_spec c cs) as [Hin Hle]. split.
    + apply list_elem_of_lookup in Hin as [i Hi].
      destruct (Forall2_lookup_r _ _ _ _ _ Hl Hi) as (p & Hp & Hpn).
      exists p. split; [|done]. apply list_elem_of_lookup. eauto.
    + intros p n Hp Hn. apply Hle.
      apply list_elem_of_lookup in Hp as [i Hi].
      destruct (Forall2_lookup_l _ _ _ _ _ Hl Hi) as (n' & Hn' & Hpn).
      apply list_elem_of_lookup. exists i. congruence.
  - intros (p & Hp & Hbad).
    rewrite checkpoint_numbers_raise.
    + destruct paths; [by apply elem_of_nil in Hp|done].
    + exists p. split; [done|]. by apply int_rejects.
Qed.

End CheckpointProofs.

(** ** get_training_args *)

Section ArgumentsProofs.

Context {V : Type}.
Implicit Types (arguments_list : list (dataclass V)) (k : string) (acc : gmap string V).

Lemma merged_lookup arguments_list acc k :
  foldl (λ acc arguments, dict_update acc (asdict arguments)) acc arguments_list !! k =
    match last_definition k arguments_list with
    | Some v => Some v
    | None => acc !! k
    end.
Proof.
  revert acc. induction arguments_list as [|a l IH]; intros acc; [done|].
  cbn [foldl last_definition]. rewrite IH.
  destruct (last_definition k l); [done|].
  unfold dict_update. rewrite lookup_union.
  by destruct (asdict a !! k), (acc !! k).
Qed.

Lemma last_definition_None arguments_list k :
  last_definition k arguments_list = None ↔
  ∀ a, a ∈ arguments_list → asdict a !! k = None.
Proof.
  induction arguments_list as [|a l IH]; cbn [last_definition].
  - split; [|done]. intros _ a Ha. by apply elem_of_nil in Ha.
  - destruct (last_definition k l) eqn:E.
    + split; [done|]. intros H.
      assert (Some v = None) as ?; [|done].
      apply IH. intros b Hb. apply H. by apply list_elem_of_further.
    + split.
      * intros Ha b Hb. apply elem_of_cons in Hb as [->|Hb]; [done|].
        by apply IH.
      * intros H. apply H, list_elem_of_here.
Qed.

(** C9.  get_training_args returns the merged field dictionaries, the
    last definition of a field winning, without the key
    "evaluation_strategy"; it raises KeyError when no element of the list
    defines that key, as for the empty list. *)
Theorem get_training_args_spec arguments_list :
  ((∃ a, a ∈ arguments_list ∧ is_Some (asdict a !! "evaluation_strategy")) →
   ∃ d, get_training_args arguments_list = Ok d ∧
        d !! "evaluation_strategy" = None ∧
        ∀ k, k ≠ "evaluation_strategy" → d !! k = last_definition k arguments_list) ∧
  ((∀ a, a ∈ arguments_list → asdict a !! "evaluation_strategy" = None) →
   get_training_args arguments_list = Raise (KeyError "evaluation_strategy")) ∧
  get_training_args (V := V) [] = Raise (KeyError "evaluation_strategy").
Proof.
  unfold get_training_args. split; [|split; [|done]].
  - intros (a & Ha & Hdef).
    rewrite merged_lookup, lookup_empty.
    destruct (last_definition "evaluation_strategy" arguments_list) as [v|] eqn:E.
    + eexists. split; [done|]. split; [apply lookup_delete_eq|].
      intros k Hk. rewrite lookup_delete_ne by done.
      rewrite merged_lookup, lookup_empty. by destruct (last_definition k _).
    + rewrite last_definition_None in E. rewrite (E a Ha) in Hdef.
      by destruct Hdef.
  - intros Hnone. rewrite merged_lookup, lookup_empty.
    by rewrite (proj2 (last_definition_None arguments_list "evaluation_strategy") Hnone).
Qed.

End ArgumentsProofs.

(** ** use_task_specific_params and reset_config *)

Section ConfigProofs.

Context {V : Type} (host : Host V) (TASK_MAPPING : gmap string (task_dataset V)).
Implicit Types (m : model) (σ : nat → gmap string V) (h : history V).

(** C10.  use_task_specific_params changes one thing only, the object
    model.config refers to, by one update with the task's configuration;
    with no task configuration nothing changes at all.  reset_config
    rebinds model.config to the given configuration and changes nothing
    else. *)
Theorem config_routines_frame m task cfg σ h :
  (∀ ds c, TASK_MAPPING !! task = Some ds → task_specific_config ds = Some c →
     ∃ σ' msg,
       use_task_specific_params host TASK_MAPPING m task σ h = (Ok (m, σ'), h ++ [Log msg]) ∧
       σ' (config m) = dict_update (σ (config m)) c ∧
       ∀ r, r ≠ config m → σ' r = σ r) ∧
  (∀ ds, TASK_MAPPING !! task = Some ds → task_specific_config ds = None →
     use_task_specific_params host TASK_MAPPING m task σ h = (Ok (m, σ), h)) ∧
  (TASK_MAPPING !! task = None →
     use_task_specific_params host TASK_MAPPING m task σ h = (Raise (KeyError task), h)) ∧
  (∃ m' msg,
     reset_config m cfg σ h = (Ok (m', σ), h ++ [Log msg]) ∧
     config m' = cfg ∧
     as_module m' = as_module m ∧ lm_head m' = lm_head m ∧
     get_encoder m' = get_encoder m ∧
     task_embedding_controller m' = task_embedding_controller m).
Proof.
  split; [|split; [|split]].
  - intros ds c Hds Hc. unfold use_task_specific_params. rewrite Hds, Hc.
    eexists _, _. split; [reflexivity|]. split.
    + apply fn_lookup_insert.
    + intros r Hr. by apply fn_lookup_insert_ne.
  - intros ds Hds Hc. unfold use_task_specific_params. by rewrite Hds, Hc.
  - intros Hnone. unfold use_task_specific_params. by rewrite Hnone.
  - by eexists _, _.
Qed.

End ConfigProofs.

(** ** freezing_params *)

Section FreezingProofs.

Variable freeze_embeds : model → store → result store.
Implicit Types (m : model) (root sub : module) (σ : store) (p : param)
  (cs : list module_class).

Lemma set_requires_grad_lookup b (ps : list param) σ p :
  set_requires_grad b ps σ p = if bool_decide (p ∈ ps) then b else σ p.
Proof.
  unfold set_requires_grad. revert σ.
  induction ps as [|q ps IH]; intros σ; cbn [foldl]; [done|].
  rewrite IH. destruct (decide (p ∈ ps)) as [Hin|Hin].
  - rewrite !bool_decide_eq_true_2; [done| |done]. by apply list_elem_of_further.
  - rewrite (bool_decide_eq_false_2 (p ∈ ps)) by done.
    destruct (decide (p = q)) as [->|Hne].
    + rewrite fn_lookup_insert. by rewrite bool_decide_eq_true_2 by apply list_elem_of_here.
    + rewrite fn_lookup_insert_ne by done.
      rewrite bool_decide_eq_false_2; [done|].
      intros [?|?]%elem_of_cons; done.
Qed.

Lemma freeze_params_lookup root σ p :
  freeze_params root σ p = if bool_decide (p ∈ parameters root) then false else σ p.
Proof. apply set_requires_grad_lookup. Qed.

Lemma unfreeze_loop_lookup cs (subs : list module) σ p :
  foldl (λ s sub, if isinstance sub cs then set_requires_grad true (parameters sub) s else s)
        σ subs p =
    existsb (λ sub, isinstance sub cs && bool_decide (p ∈ parameters sub)) subs || σ p.
Proof.
  revert σ. induction subs as [|sub subs IH]; intros σ; cbn [foldl existsb]; [done|].
  rewrite IH. destruct (isinstance sub cs); cbn [andb orb].
  - rewrite set_requires_grad_lookup.
    destruct (bool_decide (p ∈ parameters sub)); cbn [orb]; [|done].
    by rewrite orb_true_r.
  - done.
Qed.

Lemma unfreeze_instances_lookup cs root σ p :
  unfreeze_instances cs root σ p = in_instance_of cs root p || σ p.
Proof. apply unfreeze_loop_lookup. Qed.

Lemma in_instance_of_spec cs root p :
  in_instance_of cs root p = true ↔
  ∃ sub, sub ∈ named_modules root ∧ isinstance sub cs = true ∧ p ∈ parameters sub.
Proof.
  unfold in_instance_of. rewrite existsb_exists. split.
  - intros (sub & Hsub & H). apply andb_true_iff in H as [H1 H2].
    apply bool_decide_eq_true in H2. exists sub. by rewrite list_elem_of_In.
  - intros (sub & Hsub & H1 & H2). exists sub. rewrite <- list_elem_of_In.
    split; [done|]. rewrite H1. by apply bool_decide_eq_true.
Qed.

Lemma in_instance_of_cons c cs root p :
  in_instance_of (c :: cs) root p = in_instance_of [c] root p || in_instance_of cs root p.
Proof.
  unfold in_instance_of. induction (named_modules root) as [|sub subs IH]; [done|].
  cbn [existsb]. rewrite IH. unfold isinstance. cbn [existsb].
  destruct (bool_decide (c ∈ classes_of sub)), (existsb _ cs),
    (bool_decide (p ∈ parameters sub)); cbn; try done;
    by rewrite ?orb_true_r.
Qed.

(** With every later flag off, freezing_params is its first branch. *)
Lemma freezing_params_first_branch m training_args model_args adapter_args σ :
  only_train_adapters training_args model_args →
  AdapterArgs.conditional_layer_norm_for_T5 adapter_args = false →
  freezing_params freeze_embeds m training_args model_args adapter_args σ =
    train_adapters_branch m training_args adapter_args σ.
Proof.
  intros (_ & H1 & H2 & H3 & H4 & H5 & H6 & H7) H8.
  unfold freezing_params, freeze_model_branch, freeze_model_but_lm_head_branch,
    freeze_embeds_branch, freeze_encoder_branch, freeze_model_but_task_embeddings_branch,
    unfreeze_lm_head_branch, unfreeze_layer_norms_branch, conditional_layer_norm_branch.
  rewrite H1, H2, H3, H4, H5, H6, H7, H8.
  by destruct (train_adapters_branch m training_args adapter_args σ).
Qed.

Lemma train_adapters_branch_run m training_args adapter_args σ :
  TrainingArgs.train_adapters training_args = true →
  (is_meta_adapter adapter_args = true → is_Some (task_embedding_controller m)) →
  ∃ σ', train_adapters_branch m training_args adapter_args σ = Ok σ' ∧
        ∀ p, σ' p = trainable_pattern m adapter_args p
                    || (negb (bool_decide (p ∈ parameters (as_module m))) && σ p).
Proof.
  intros Hta Hctl. unfold train_adapters_branch. rewrite Hta.
  assert (∃ c, (if is_meta_adapter adapter_args
                then task_embedding_controller m = Some c else True)) as [c Hc].
  { destruct (is_meta_adapter adapter_args); [|by exists (Build_controller (as_module m) PlainDict)].
    destruct Hctl as [c Hc]; eauto. }
  set (σ2 := unfreeze_instances [MetaAdapterController; AdapterController] (as_module m)
               (freeze_params (as_module m) σ)).
  set (σ3 := if is_meta_adapter adapter_args
             then set_requires_grad true (parameters (controller_module c)) σ2 else σ2).
  exists (if AdapterArgs.unique_hyper_net adapter_args
          then unfreeze_instances [AdapterLayersHyperNetController; AdapterController]
                                  (as_module m) σ3
          else σ3).
  split.
  { subst σ3. destruct (is_meta_adapter adapter_args); [|reflexivity].
    unfold the_controller. rewrite Hc. reflexivity. }
  intros p. subst σ3 σ2. unfold trainable_pattern, in_controller.
  destruct (is_meta_adapter adapter_args); [rewrite Hc|];
    destruct (AdapterArgs.unique_hyper_net adapter_args); cbn [andb orb];
    rewrite ?unfreeze_instances_lookup, ?set_requires_grad_lookup,
      ?unfreeze_instances_lookup, ?freeze_params_lookup,
      ?(in_instance_of_cons AdapterLayersHyperNetController [AdapterController]),
      ?(in_instance_of_cons MetaAdapterController [AdapterController]),
      ?(in_instance_of_cons AdapterController [MetaAdapterController]).
  all: destruct (in_instance_of [AdapterController] (as_module m) p),
         (in_instance_of [MetaAdapterController] (as_module m) p),
         (bool_decide (p ∈ parameters (as_module m))); cbn; try done.
  all: try (destruct (bool_decide (p ∈ parameters (controller_module c))); cbn; try done).
  all: by destruct (in_instance_of [AdapterLayersHyperNetController] (as_module m) p).
Qed.

(** C4, as amended.  With train_adapters set, every freeze and unfreeze
    flag of the model arguments off, and conditional_layer_norm_for_T5 off
    as well, freezing_params returns (the model having a
    task_embedding_controller when the adapter configuration is
    "meta-adapter"), and afterwards a parameter of the model requires a
    gradient exactly when it belongs to an AdapterController or
    MetaAdapterController module, to the task embedding controller under
    "meta-adapter", or to an AdapterLayersHyperNetController module under
    unique_hyper_net.  Parameters outside the model and outside these
    modules keep their flag. *)
Theorem freezing_params_train_adapters m training_args model_args adapter_args σ :
  only_train_adapters training_args model_args →
  AdapterArgs.conditional_layer_norm_for_T5 adapter_args = false →
  (is_meta_adapter adapter_args = true → is_Some (task_embedding_controller m)) →
  ∃ σ', freezing_params freeze_embeds m training_args model_args adapter_args σ = Ok σ' ∧
    (∀ p, p ∈ parameters (as_module m) →
          σ' p = true ↔ trainable_pattern m adapter_args p = true) ∧
    (∀ p, trainable_pattern m adapter_args p = true → σ' p = true) ∧
    (∀ p, p ∉ parameters (as_module m) →
          trainable_pattern m adapter_args p = false → σ' p = σ p).
Proof.
  intros Honly Hcln Hctl.
  rewrite freezing_params_first_branch by done.
  destruct (train_adapters_branch_run m training_args adapter_args σ)
    as (σ' & -> & Hσ'); [apply Honly|done|].
  exists σ'. split; [done|]. split; [|split].
  - intros p Hp. rewrite Hσ'. rewrite bool_decide_eq_true_2 by done.
    cbn. by rewrite orb_false_r.
  - intros p Hp. by rewrite Hσ', Hp.
  - intros p Hp Hpat. rewrite Hσ', Hpat. by rewrite bool_decide_eq_false_2.
Qed.


End FreezingProofs.

(** The remove fails, the copy succeeds: the run ends after the try block. *)
Lemma scripted_rm_failure_run :
  new_events [] (snd (Utils.upload (scripted_host [Ok 256] []) "out" "b" [])) =
    [Sys "/root/google-cloud-sdk/bin/gsutil -m rm -r gs://b/out" (Ok 256);
     Sys "/root/google-cloud-sdk/bin/gsutil -m cp -r out gs://b/out" (Ok 0)].
Proof. reflexivity. Qed.

Lemma scripted_rm_failed_alone :
  primary_rm_failed_alone "out" "b"
    (new_events [] (snd (Utils.upload (scripted_host [Ok 256] []) "out" "b" []))).
Proof.
  rewrite scripted_rm_failure_run. split.
  - exists 256. split; [done|]. apply list_elem_of_here.
  - apply list_elem_of_further, list_elem_of_here.
Qed.

(** C1 as stated fails: a host on which only the first remove returns a
    nonzero status sees no retry. *)
Lemma upload_rm_failure_alone_no_fallback :
  ¬ (∀ (host : Host unit) d b h,
       primary_rm_failed_alone d b (new_events h (snd (Utils.upload host d b h))) →
       fallback_ran d b (new_events h (snd (Utils.upload host d b h)))).
Proof.
  intros H.
  destruct (H (scripted_host [Ok 256] []) "out" "b" [] scripted_rm_failed_alone) as [r Hr].
  rewrite scripted_rm_failure_run in Hr.
  set_unfold. destruct Hr as [Hr|[Hr|[]]]; discriminate Hr.
Qed.

Lemma upload_fallback_iff_witness :
  let evs := new_events [] (snd (Utils.upload (scripted_host [Ok 256] []) "out" "b" [])) in
  primary_rm_failed_alone "out" "b" evs ∧ ¬ fallback_ran "out" "b" evs.
Proof.
  split.
  - exact scripted_rm_failed_alone.
  - apply (proj2 (upload_fallback_iff (scripted_host [Ok 256] []) "out" "b" [])).
    exact scripted_rm_failed_alone.
Defined.

Lemma upload_swallows_primary_errors_witness :
  fst (Utils.upload (picky_host (Raise OSError) (Ok 256)) "out" "b" []) = Ok tt.
Proof.
  apply (upload_swallows_primary_errors (picky_host (Raise OSError) (Ok 256)) "out" "b" []).
  intros h'. split; reflexivity.
Defined.

(** C4 as stated fails: with conditional_layer_norm_for_T5 set, the
    parameter of the LayerNormHyperNet module of the sample model requires a
    gradient after the call although it belongs to none of the listed
    modules. *)
Lemma freezing_params_conditional_layer_norm :
  ¬ (∀ freeze_embeds m training_args model_args adapter_args σ σ',
       only_train_adapters training_args model_args →
       freezing_params freeze_embeds m training_args model_args adapter_args σ = Ok σ' →
       ∀ p, p ∈ parameters (as_module m) →
            σ' p = true ↔ trainable_pattern m adapter_args p = true).
Proof.
  intros H.
  assert (only_train_adapters training_adapters model_flags_off) as Honly.
  { by repeat split. }
  assert (3%nat ∈ parameters (as_module sample_model)) as Hin.
  { unfold sample_model; cbn. set_solver. }
  destruct (H no_freeze_embeds sample_model training_adapters model_flags_off
              (adapter_flags true) all_trainable _ Honly eq_refl 3%nat Hin) as [Hpat _].
  assert (trainable_pattern sample_model (adapter_flags true) 3%nat = true) as Habs.
  { apply Hpat. by vm_compute. }
  by vm_compute in Habs.
Qed.

Lemma freezing_params_train_adapters_witness :
  ∃ σ', freezing_params no_freeze_embeds sample_model training_adapters model_flags_off
          (adapter_flags false) all_trainable = Ok σ' ∧
        σ' 1%nat = true ∧ σ' 2%nat = true ∧ σ' 3%nat = false ∧ σ' 7%nat = true.
Proof.
  destruct (freezing_params_train_adapters no_freeze_embeds sample_model training_adapters
              model_flags_off (adapter_flags false) all_trainable)
    as (σ' & Hrun & Hmodel & Hpat & Hframe).
  - by repeat split.
  - reflexivity.
  - intros Hmeta. by vm_compute in Hmeta.
  - exists σ'. split; [exact Hrun|]. repeat split.
    + by apply Hpat.
    + by apply Hpat.
    + apply not_true_is_false. intros Htrue. apply Hmodel in Htrue; [by vm_compute in Htrue|].
      unfold sample_model; cbn. set_solver.
    + rewrite Hframe; [done| |done]. unfold sample_model; cbn. set_solver.
Defined.


Example last_checkpoint_ex :
  fst (Utils.get_last_checkpoint_path (scripted_host [] sample_listing) "out" []) =
    Ok "out/checkpoint-12".
Proof. reflexivity. Qed.

Lemma get_last_checkpoint_path_spec_witness :
  ∃ m, is_max_checkpoint sample_listing m ∧
       fst (Utils.get_last_checkpoint_path (scripted_host [] sample_listing) "out" []) =
         Ok (PyStr.os_path_join "out" ("checkpoint-" +:+ PyStr.str m)).
Proof.
  apply (proj1 (proj2 (proj2 (get_last_checkpoint_path_spec
                                (scripted_host [] sample_listing) "out" [])))).
  - discriminate.
  - intros p Hp. apply int_accepts. cbn in Hp. unfold sample_listing in Hp.
    set_unfold. destruct Hp as [->|[->|[->|[]]]]; by eexists.
Defined.

Lemma get_training_args_spec_witness :
  ∃ d, get_training_args sample_arguments = Ok d ∧
       d !! "evaluation_strategy" = None ∧
       ∀ k, k ≠ "evaluation_strategy" → d !! k = last_definition k sample_arguments.
Proof.
  apply (proj1 (get_training_args_spec sample_arguments)).
  eexists. split; [apply list_elem_of_here|]. by eexists.
Defined.

Example training_args_ex :
  get_training_args sample_arguments = Ok {["learning_rate" := 3; "seed" := 42]}.
Proof. by vm_compute. Qed.

Lemma config_routines_frame_witness :
  ∃ σ' msg,
    use_task_specific_params (picky_host (Ok 0) (Ok 0)) sample_tasks sample_model "rte"
      (λ _, ∅) [] = (Ok (sample_model, σ'), [Log msg]) ∧
    σ' (config sample_model) = dict_update ∅ {["max_length" := tt]} ∧
    ∀ r, r ≠ config sample_model → σ' r = ∅.
Proof.
  apply (proj1 (config_routines_frame (picky_host (Ok 0) (Ok 0)) sample_tasks sample_model
                  "rte" 0%nat (λ _, ∅) [])
           {| task_specific_config := Some {["max_length" := tt]} |} {["max_length" := tt]}).
  - by vm_compute.
  - reflexivity.
Defined.

(** With the absolute tool path absent (exit status 127 of the shell),
    both attempts run, the second with the plain tool name. *)
Example upload_absent_tool_ex :
  Utils.upload (picky_host (Ok 32512) (Ok 0)) "out" "b" [] =
    (Ok tt,
     [Sys "/root/google-cloud-sdk/bin/gsutil -m rm -r gs://b/out" (Ok 32512);
      Sys "/root/google-cloud-sdk/bin/gsutil -m cp -r out gs://b/out" (Ok 32512);
      Sys "gsutil -m rm -r gs://b/out" (Ok 0);
      Sys "gsutil -m cp -r out gs://b/out" (Ok 0)]).
Proof. reflexivity. Qed.

(** An os.system call that raises in the retry is the one way an exception
    leaves upload. *)
Example upload_retry_raises_ex :
  fst (Utils.upload (scripted_host [Ok 0; Ok 1; Raise ValueError] []) "out" "b" []) =
    Raise ValueError.
Proof. reflexivity. Qed.

(** * Further properties *)

(** ** freezing_params, parameter by parameter *)

Section FreezingEffects.

Variable freeze_embeds : model → store → result store.
Implicit Types (m : model) (root sub : module) (σ : store) (p : param).

Lemma default_over (x : bool) (later earlier : option bool) :
  default (default x earlier) later = default x (over later earlier).
Proof. by destruct later. Qed.

Lemma over_assoc (a b c : option bool) : over (over a b) c = over a (over b c).
Proof. by destruct a. Qed.

Lemma set_true_effect root σ p :
  set_requires_grad true (parameters root) σ p =
    default (σ p) (forced (is_param_of root p) true).
Proof. rewrite set_requires_grad_lookup. unfold is_param_of. by case_bool_decide. Qed.

Lemma freeze_effect root σ p :
  freeze_params root σ p = default (σ p) (forced (is_param_of root p) false).
Proof. rewrite freeze_params_lookup. unfold is_param_of. by case_bool_decide. Qed.

Lemma unfreeze_effect cs root σ p :
  unfreeze_instances cs root σ p = default (σ p) (forced (in_instance_of cs root p) true).
Proof. rewrite unfreeze_instances_lookup. by destruct (in_instance_of cs root p). Qed.

Lemma train_adapters_branch_effect m training_args adapter_args σ :
  (is_meta_adapter adapter_args && TrainingArgs.train_adapters training_args = true →
   is_Some (task_embedding_controller m)) →
  ∃ σ', train_adapters_branch m training_args adapter_args σ = Ok σ' ∧
        ∀ p, σ' p = default (σ p) (train_adapters_effect m training_args adapter_args p).
Proof.
  intros Hctl. unfold train_adapters_branch, train_adapters_effect.
  destruct (TrainingArgs.train_adapters training_args); [|by exists σ].
  destruct (is_meta_adapter adapter_args) eqn:Hmeta.
  - destruct Hctl as [c Hc]; [done|]. unfold the_controller, in_controller. rewrite Hc. cbn.
    eexists. split; [reflexivity|]. intros p.
    destruct (AdapterArgs.unique_hyper_net adapter_args); cbn [andb];
      repeat first [rewrite unfreeze_effect | rewrite set_true_effect | rewrite freeze_effect];
      rewrite ?default_over, ?over_assoc; reflexivity.
  - cbn. eexists. split; [reflexivity|]. intros p.
    destruct (AdapterArgs.unique_hyper_net adapter_args); cbn [andb];
      repeat first [rewrite unfreeze_effect | rewrite freeze_effect];
      rewrite ?default_over, ?over_assoc; reflexivity.
Qed.

Lemma freeze_model_branch_effect m model_args σ p :
  freeze_model_branch m model_args σ p =
    default (σ p) (freeze_model_effect m model_args p).
Proof.
  unfold freeze_model_branch, freeze_model_effect.
  destruct (ModelArgs.freeze_model model_args); [apply freeze_effect|done].
Qed.

Lemma freeze_model_but_lm_head_branch_effect m model_args σ p :
  freeze_model_but_lm_head_branch m model_args σ p =
    default (σ p) (freeze_model_but_lm_head_effect m model_args p).
Proof.
  unfold freeze_model_but_lm_head_branch, freeze_model_but_lm_head_effect.
  destruct (ModelArgs.freeze_model_but_lm_head model_args); [|done].
  by rewrite set_true_effect, freeze_effect, default_over.
Qed.

Lemma freeze_encoder_branch_effect m model_args σ :
  ∃ σ', freeze_encoder_branch m model_args σ = Ok σ' ∧
        ∀ p, σ' p = default (σ p) (freeze_encoder_effect m model_args p).
Proof.
  unfold freeze_encoder_branch, freeze_encoder_effect.
  destruct (ModelArgs.freeze_encoder model_args); [|by exists σ].
  exists (freeze_params (get_encoder m) σ). split; [|intros p; apply freeze_effect].
  cbn zeta. unfold assert_all_frozen.
  destruct (existsb _ _) eqn:E; [|done].
  apply existsb_exists in E as (p & Hp & Htrue).
  apply list_elem_of_In in Hp. rewrite freeze_params_lookup in Htrue.
  by rewrite bool_decide_eq_true_2 in Htrue.
Qed.

Lemma freeze_model_but_task_embeddings_branch_effect m model_args adapter_args σ :
  (is_meta_adapter adapter_args && ModelArgs.freeze_model_but_task_embeddings model_args = true →
   is_Some (task_embedding_controller m)) →
  ∃ σ', freeze_model_but_task_embeddings_branch m model_args adapter_args σ = Ok σ' ∧
        ∀ p, σ' p = default (σ p)
                      (freeze_model_but_task_embeddings_effect m model_args adapter_args p).
Proof.
  intros Hctl.
  unfold freeze_model_but_task_embeddings_branch, freeze_model_but_task_embeddings_effect.
  destruct (ModelArgs.freeze_model_but_task_embeddings model_args); [|by exists σ].
  destruct (is_meta_adapter adapter_args).
  - destruct Hctl as [c Hc]; [done|]. unfold the_controller, in_embeddings. rewrite Hc. cbn.
    destruct (task_to_embeddings c) as [|e].
    + eexists. split; [reflexivity|]. intros p. by rewrite freeze_effect.
    + eexists. split; [reflexivity|]. intros p.
      by rewrite set_true_effect, freeze_effect, default_over.
  - eexists. split; [reflexivity|]. intros p. by rewrite freeze_effect.
Qed.

Lemma unfreeze_lm_head_branch_effect m model_args σ p :
  unfreeze_lm_head_branch m model_args σ p =
    default (σ p) (unfreeze_lm_head_effect m model_args p).
Proof.
  unfold unfreeze_lm_head_branch, unfreeze_lm_head_effect.
  destruct (ModelArgs.unfreeze_lm_head model_args); [apply set_true_effect|done].
Qed.

Lemma unfreeze_layer_norms_branch_effect m model_args σ p :
  unfreeze_layer_norms_branch m model_args σ p =
    default (σ p) (unfreeze_layer_norms_effect m model_args p).
Proof.
  unfold unfreeze_layer_norms_branch, unfreeze_layer_norms_effect.
  destruct (ModelArgs.unfreeze_layer_norms model_args); [apply unfreeze_effect|done].
Qed.

Lemma conditional_layer_norm_branch_effect m adapter_args σ p :
  conditional_layer_norm_branch m adapter_args σ p =
    default (σ p) (conditional_layer_norm_effect m adapter_args p).
Proof.
  unfold conditional_layer_norm_branch, conditional_layer_norm_effect.
  destruct (AdapterArgs.conditional_layer_norm_for_T5 adapter_args);
    [apply unfreeze_effect|done].
Qed.

(** With freeze_embeds off and the controller present where it is read,
    freezing_params returns, and the final flag of a parameter is its forced
    value, or its initial flag when no branch touches it. *)
Lemma freezing_params_effect m training_args model_args adapter_args σ :
  ModelArgs.freeze_embeds model_args = false →
  (needs_controller training_args model_args adapter_args = true →
   is_Some (task_embedding_controller m)) →
  ∃ σ', freezing_params freeze_embeds m training_args model_args adapter_args σ = Ok σ' ∧
        ∀ p, σ' p = default (σ p)
                      (freezing_effect m training_args model_args adapter_args p).
Proof.
  intros Hfe Hctl. unfold needs_controller in Hctl.
  unfold freezing_params, freeze_embeds_branch. rewrite Hfe.
  destruct (train_adapters_branch_effect m training_args adapter_args σ) as (σ1 & -> & H1).
  { intros H. apply Hctl. apply andb_true_iff in H as [-> ->]. done. }
  cbn.
  destruct (freeze_encoder_branch_effect m model_args
              (freeze_model_but_lm_head_branch m model_args
                 (freeze_model_branch m model_args σ1))) as (σ2 & -> & H2).
  cbn.
  destruct (freeze_model_but_task_embeddings_branch_effect m model_args adapter_args σ2)
    as (σ3 & -> & H3).
  { intros H. apply Hctl. apply andb_true_iff in H as [-> ->]. by rewrite orb_true_r. }
  cbn. eexists. split; [reflexivity|]. intros p.
  rewrite conditional_layer_norm_branch_effect, unfreeze_layer_norms_branch_effect,
    unfreeze_lm_head_branch_effect, H3, H2, freeze_model_but_lm_head_branch_effect,
    freeze_model_branch_effect, H1.
  unfold freezing_effect. by rewrite !default_over, ?over_assoc.
Qed.

Lemma submodule_parameters :
  ∀ root sub p, sub ∈ named_modules root → p ∈ parameters sub → p ∈ parameters root.
Proof.
  fix IH 1. intros [cs own children] sub p Hsub Hp.
  cbn [named_modules] in Hsub. apply elem_of_cons in Hsub as [->|Hsub]; [done|].
  cbn [parameters]. apply elem_of_app. right.
  induction children as [|c children IHc]; cbn [flat_map] in *.
  - by apply elem_of_nil in Hsub.
  - apply elem_of_app in Hsub as [Hsub|Hsub]; apply elem_of_app.
    + left. by apply (IH c sub p).
    + right. by apply IHc.
Qed.

Lemma in_instance_of_param cs root p :
  is_param_of root p = false → in_instance_of cs root p = false.
Proof.
  intros Hp. apply not_true_is_false. intros Hin.
  apply in_instance_of_spec in Hin as (sub & Hsub & _ & Hpsub).
  apply bool_decide_eq_false in Hp. apply Hp. by eapply submodule_parameters.
Qed.

Lemma not_reachable m p :
  p ∉ reachable_parameters m →
  is_param_of (as_module m) p = false ∧ is_param_of (lm_head m) p = false ∧
  is_param_of (get_encoder m) p = false ∧ in_controller m p = false ∧
  in_embeddings m p = false.
Proof.
  unfold reachable_parameters, is_param_of, in_controller, in_embeddings. intros H.
  rewrite !not_elem_of_app in H. destruct H as (H1 & H2 & H3 & H4).
  repeat split; try by apply bool_decide_eq_false.
  - destruct (task_embedding_controller m) as [c|]; [|done].
    apply not_elem_of_app in H4 as [H4 _]. by apply bool_decide_eq_false.
  - destruct (task_embedding_controller m) as [c|]; [|done].
    apply not_elem_of_app in H4 as [_ H4].
    destruct (task_to_embeddings c); [done|]. by apply bool_decide_eq_false.
Qed.

Ltac unfold_effects :=
  unfold freezing_effect, conditional_layer_norm_effect, unfreeze_layer_norms_effect,
    unfreeze_lm_head_effect, freeze_model_but_task_embeddings_effect,
    freeze_encoder_effect, freeze_model_but_lm_head_effect, freeze_model_effect,
    train_adapters_effect.

Ltac effect_atoms :=
  repeat match goal with
    | |- context [in_instance_of ?cs ?r ?p] => destruct (in_instance_of cs r p)
    | |- context [is_param_of ?r ?p] => destruct (is_param_of r p)
    | |- context [in_controller ?m ?p] => destruct (in_controller m p)
    | |- context [in_embeddings ?m ?p] => destruct (in_embeddings m p)
    | |- context [is_meta_adapter ?a] => destruct (is_meta_adapter a)
    | |- context [AdapterArgs.unique_hyper_net ?a] => destruct (AdapterArgs.unique_hyper_net a)
    | |- context [AdapterArgs.conditional_layer_norm_for_T5 ?a] =>
        destruct (AdapterArgs.conditional_layer_norm_for_T5 a)
    | |- context [TrainingArgs.train_adapters ?a] => destruct (TrainingArgs.train_adapters a)
    | |- context [ModelArgs.freeze_model ?a] => destruct (ModelArgs.freeze_model a)
    | |- context [ModelArgs.freeze_model_but_lm_head ?a] =>
        destruct (ModelArgs.freeze_model_but_lm_head a)
    | |- context [ModelArgs.freeze_encoder ?a] => destruct (ModelArgs.freeze_encoder a)
    | |- context [ModelArgs.freeze_model_but_task_embeddings ?a] =>
        destruct (ModelArgs.freeze_model_but_task_embeddings a)
    | |- context [ModelArgs.unfreeze_lm_head ?a] => destruct (ModelArgs.unfreeze_lm_head a)
    | |- context [ModelArgs.unfreeze_layer_norms ?a] =>
        destruct (ModelArgs.unfreeze_layer_norms a)
    end.

(** X1.  Frame.  With freeze_embeds off, freezing_params changes the flag of
    no parameter outside the model, its lm_head, its encoder and its task
    embedding controller. *)
Theorem freezing_params_frame m training_args model_args adapter_args σ :
  ModelArgs.freeze_embeds model_args = false →
  (needs_controller training_args model_args adapter_args = true →
   is_Some (task_embedding_controller m)) →
  ∃ σ', freezing_params freeze_embeds m training_args model_args adapter_args σ = Ok σ' ∧
        ∀ p, p ∉ reachable_parameters m → σ' p = σ p.
Proof.
  intros Hfe Hctl.
  destruct (freezing_params_effect m training_args model_args adapter_args σ Hfe Hctl)
    as (σ' & Hrun & Hσ').
  exists σ'. split; [done|]. intros p Hp. rewrite Hσ'.
  destruct (not_reachable m p Hp) as (H1 & H2 & H3 & H4 & H5).
  unfold_effects.
  rewrite !(in_instance_of_param _ (as_module m) p H1), H1, H2, H3, H4, H5.
  rewrite !andb_false_r. cbn. by effect_atoms.
Qed.

(** X2.  Calling freezing_params a second time changes nothing: the flags
    after the second call are those after the first. *)
Theorem freezing_params_idempotent m training_args model_args adapter_args σ :
  ModelArgs.freeze_embeds model_args = false →
  (needs_controller training_args model_args adapter_args = true →
   is_Some (task_embedding_controller m)) →
  ∃ σ' σ'',
    freezing_params freeze_embeds m training_args model_args adapter_args σ = Ok σ' ∧
    freezing_params freeze_embeds m training_args model_args adapter_args σ' = Ok σ'' ∧
    ∀ p, σ'' p = σ' p.
Proof.
  intros Hfe Hctl.
  destruct (freezing_params_effect m training_args model_args adapter_args σ Hfe Hctl)
    as (σ' & Hrun & Hσ').
  destruct (freezing_params_effect m training_args model_args adapter_args σ' Hfe Hctl)
    as (σ'' & Hrun' & Hσ'').
  exists σ', σ''. split; [done|]. split; [done|]. intros p.
  rewrite Hσ'', Hσ'. by destruct (freezing_effect _ _ _ _ p).
Qed.

(** X3.  With freeze_embeds off, freezing_params raises exactly when the
    adapter configuration is "meta-adapter", a branch that reads
    model.task_embedding_controller is taken (train_adapters or
    freeze_model_but_task_embeddings), and the model has no such attribute;
    the exception is then the AttributeError of that attribute. *)
Theorem freezing_params_attribute_error m training_args model_args adapter_args σ :
  ModelArgs.freeze_embeds model_args = false →
  freezing_params freeze_embeds m training_args model_args adapter_args σ =
    Raise (AttributeError "task_embedding_controller") ∧
  needs_controller training_args model_args adapter_args = true ∧
  task_embedding_controller m = None
  ∨
  is_ok (freezing_params freeze_embeds m training_args model_args adapter_args σ) = true ∧
  (needs_controller training_args model_args adapter_args = true →
   is_Some (task_embedding_controller m)).
Proof.
  intros Hfe.
  destruct (needs_controller training_args model_args adapter_args) eqn:Hneed;
    [destruct (task_embedding_controller m) as [c|] eqn:Hc|].
  - right. destruct (freezing_params_effect m training_args model_args adapter_args σ Hfe)
      as (σ' & -> & _); [intros _; rewrite Hc; eauto|]. split; [done|]. eauto.
  - left. split; [|done]. unfold needs_controller in Hneed.
    apply andb_true_iff in Hneed as [Hmeta Hflags].
    unfold freezing_params, train_adapters_branch, the_controller. rewrite Hmeta, Hc.
    destruct (TrainingArgs.train_adapters training_args); [done|].
    cbn in Hflags. cbn. unfold freeze_embeds_branch. rewrite Hfe. cbn.
    destruct (freeze_encoder_branch_effect m model_args
                (freeze_model_but_lm_head_branch m model_args
                   (freeze_model_branch m model_args σ))) as (σ2 & -> & _).
    cbn. unfold freeze_model_but_task_embeddings_branch, the_controller.
    by rewrite Hflags, Hmeta, Hc.
  - right. destruct (freezing_params_effect m training_args model_args adapter_args σ Hfe)
      as (σ' & -> & _); [intros; congruence|]. split; [done|]. intros; congruence.
Qed.

Lemma is_param_of_true root p : p ∈ parameters root → is_param_of root p = true.
Proof. intros H. by apply bool_decide_eq_true. Qed.

(** X4.  With freeze_embeds off, freeze_model has the last word over
    train_adapters: when it is set and no later branch unfreezes
    (freeze_model_but_lm_head, freeze_model_but_task_embeddings, the
    unfreeze flags and conditional_layer_norm_for_T5 off), and the model
    has the task_embedding_controller that the train_adapters branch reads
    under "meta-adapter", freezing_params returns and every parameter of
    the model ends frozen, adapters included. *)
Theorem freeze_model_freezes_all m training_args model_args adapter_args σ :
  ModelArgs.freeze_embeds model_args = false →
  ModelArgs.freeze_model model_args = true →
  ModelArgs.freeze_model_but_lm_head model_args = false →
  ModelArgs.freeze_model_but_task_embeddings model_args = false →
  ModelArgs.unfreeze_lm_head model_args = false →
  ModelArgs.unfreeze_layer_norms model_args = false →
  AdapterArgs.conditional_layer_norm_for_T5 adapter_args = false →
  (needs_controller training_args model_args adapter_args = true →
   is_Some (task_embedding_controller m)) →
  ∃ σ', freezing_params freeze_embeds m training_args model_args adapter_args σ = Ok σ' ∧
        ∀ p, p ∈ parameters (as_module m) → σ' p = false.
Proof.
  intros Hfe H1 H2 H3 H4 H5 H6 Hctl.
  destruct (freezing_params_effect m training_args model_args adapter_args σ Hfe Hctl)
    as (σ' & Hrun & Hσ').
  exists σ'. split; [done|]. intros p Hp%is_param_of_true. rewrite Hσ'.
  unfold_effects. rewrite H1, H2, H3, H4, H5, H6, Hp. cbn.
  by destruct (ModelArgs.freeze_encoder model_args && is_param_of (get_encoder m) p).
Qed.

(** X5.  With freeze_embeds off, freeze_model_but_lm_head set and no later
    branch touching flags (freeze_encoder, freeze_model_but_task_embeddings,
    unfreeze_layer_norms and conditional_layer_norm_for_T5 off), and the
    model having the task_embedding_controller that the train_adapters
    branch reads under "meta-adapter", freezing_params returns and a
    parameter of the model or of the head ends trainable exactly when it is
    a parameter of model.lm_head. *)
Theorem freeze_model_but_lm_head_pattern m training_args model_args adapter_args σ :
  ModelArgs.freeze_embeds model_args = false →
  ModelArgs.freeze_model_but_lm_head model_args = true →
  ModelArgs.freeze_encoder model_args = false →
  ModelArgs.freeze_model_but_task_embeddings model_args = false →
  ModelArgs.unfreeze_layer_norms model_args = false →
  AdapterArgs.conditional_layer_norm_for_T5 adapter_args = false →
  (needs_controller training_args model_args adapter_args = true →
   is_Some (task_embedding_controller m)) →
  ∃ σ', freezing_params freeze_embeds m training_args model_args adapter_args σ = Ok σ' ∧
        ∀ p, p ∈ parameters (as_module m) ∨ p ∈ parameters (lm_head m) →
             σ' p = is_param_of (lm_head m) p.
Proof.
  intros Hfe H1 H2 H3 H4 H5 Hctl.
  destruct (freezing_params_effect m training_args model_args adapter_args σ Hfe Hctl)
    as (σ' & Hrun & Hσ').
  exists σ'. split; [done|]. intros p Hp. rewrite Hσ'.
  unfold_effects. rewrite H1, H2, H3, H4, H5. cbn.
  destruct Hp as [Hp%is_param_of_true|Hp%is_param_of_true]; rewrite Hp.
  - destruct (ModelArgs.unfreeze_lm_head model_args), (is_param_of (lm_head m) p); by cbn.
  - by destruct (ModelArgs.unfreeze_lm_head model_args).
Qed.

(** X6.  With freeze_embeds off, freeze_encoder set and
    freeze_model_but_task_embeddings, unfreeze_layer_norms and
    conditional_layer_norm_for_T5 off, and the model having the
    task_embedding_controller that the train_adapters branch reads under
    "meta-adapter", freezing_params returns and a parameter of the encoder
    ends frozen unless unfreeze_lm_head is set and the parameter is shared
    with model.lm_head: the assertion passed inside the branch does not
    protect tied weights from the later unfreezing. *)
Theorem freeze_encoder_and_lm_head m training_args model_args adapter_args σ :
  ModelArgs.freeze_embeds model_args = false →
  ModelArgs.freeze_encoder model_args = true →
  ModelArgs.freeze_model_but_task_embeddings model_args = false →
  ModelArgs.unfreeze_layer_norms model_args = false →
  AdapterArgs.conditional_layer_norm_for_T5 adapter_args = false →
  (needs_controller training_args model_args adapter_args = true →
   is_Some (task_embedding_controller m)) →
  ∃ σ', freezing_params freeze_embeds m training_args model_args adapter_args σ = Ok σ' ∧
        ∀ p, p ∈ parameters (get_encoder m) →
             σ' p = ModelArgs.unfreeze_lm_head model_args && is_param_of (lm_head m) p.
Proof.
  intros Hfe H1 H2 H3 H4 Hctl.
  destruct (freezing_params_effect m training_args model_args adapter_args σ Hfe Hctl)
    as (σ' & Hrun & Hσ').
  exists σ'. split; [done|]. intros p Hp%is_param_of_true. rewrite Hσ'.
  unfold_effects. rewrite H1, H2, H3, H4, Hp. cbn.
  by destruct (ModelArgs.unfreeze_lm_head model_args), (is_param_of (lm_head m) p).
Qed.

(** X7.  With freeze_embeds off, freeze_model_but_task_embeddings set and
    every later branch off (unfreeze_lm_head, unfreeze_layer_norms,
    conditional_layer_norm_for_T5), and the model having a
    task_embedding_controller when the adapter configuration is
    "meta-adapter", freezing_params returns and a parameter of the model
    ends trainable exactly when the adapter configuration is "meta-adapter"
    and the parameter belongs to a task_to_embeddings that is a
    ParameterDict; with a plain dict, or another configuration, the whole
    model ends frozen. *)
Theorem freeze_model_but_task_embeddings_pattern m training_args model_args adapter_args σ :
  ModelArgs.freeze_embeds model_args = false →
  ModelArgs.freeze_model_but_task_embeddings model_args = true →
  ModelArgs.unfreeze_lm_head model_args = false →
  ModelArgs.unfreeze_layer_norms model_args = false →
  AdapterArgs.conditional_layer_norm_for_T5 adapter_args = false →
  (is_meta_adapter adapter_args = true → is_Some (task_embedding_controller m)) →
  ∃ σ', freezing_params freeze_embeds m training_args model_args adapter_args σ = Ok σ' ∧
        ∀ p, p ∈ parameters (as_module m) →
             σ' p = is_meta_adapter adapter_args && in_embeddings m p.
Proof.
  intros Hfe H1 H2 H3 H4 Hctl.
  destruct (freezing_params_effect m training_args model_args adapter_args σ Hfe)
    as (σ' & Hrun & Hσ').
  { unfold needs_controller. intros [? _]%andb_true_iff. auto. }
  exists σ'. split; [done|]. intros p Hp%is_param_of_true. rewrite Hσ'.
  unfold_effects. rewrite H1, H2, H3, H4, Hp. cbn.
  by destruct (is_meta_adapter adapter_args && in_embeddings m p).
Qed.

(** X8.  Without train_adapters and without any freeze flag, freezing_params
    always returns and only ever unfreezes: a parameter ends trainable
    exactly when it was trainable before, or unfreeze_lm_head is set and it
    belongs to model.lm_head, or unfreeze_layer_norms is set and it belongs
    to a T5LayerNorm module, or conditional_layer_norm_for_T5 is set and it
    belongs to a LayerNormHyperNet module. *)
Theorem freezing_params_only_unfreezes m training_args model_args adapter_args σ :
  TrainingArgs.train_adapters training_args = false →
  ModelArgs.freeze_model model_args = false →
  ModelArgs.freeze_model_but_lm_head model_args = false →
  ModelArgs.freeze_embeds model_args = false →
  ModelArgs.freeze_encoder model_args = false →
  ModelArgs.freeze_model_but_task_embeddings model_args = false →
  ∃ σ', freezing_params freeze_embeds m training_args model_args adapter_args σ = Ok σ' ∧
        ∀ p, σ' p =
             σ p
             || (ModelArgs.unfreeze_lm_head model_args && is_param_of (lm_head m) p)
             || (ModelArgs.unfreeze_layer_norms model_args &&
                 in_instance_of [T5LayerNorm] (as_module m) p)
             || (AdapterArgs.conditional_layer_norm_for_T5 adapter_args &&
                 in_instance_of [LayerNormHyperNet] (as_module m) p).
Proof.
  intros H0 H1 H2 Hfe H3 H4.
  destruct (freezing_params_effect m training_args model_args adapter_args σ Hfe)
    as (σ' & Hrun & Hσ').
  { unfold needs_controller. rewrite H0, H4. by rewrite andb_false_r. }
  exists σ'. split; [done|]. intros p. rewrite Hσ'.
  unfold_effects. rewrite H0, H1, H2, H3, H4. cbn.
  destruct (σ p); effect_atoms; by cbn.
Qed.

(** X9.  The unfreeze flags win over every freeze flag.  With freeze_embeds
    off, after freezing_params every parameter of model.lm_head is trainable
    when unfreeze_lm_head is set, every parameter of a T5LayerNorm module
    when unfreeze_layer_norms is set, and every parameter of a
    LayerNormHyperNet module when conditional_layer_norm_for_T5 is set,
    whatever the other flags. *)
Theorem unfreeze_flags_win m training_args model_args adapter_args σ :
  ModelArgs.freeze_embeds model_args = false →
  (needs_controller training_args model_args adapter_args = true →
   is_Some (task_embedding_controller m)) →
  ∃ σ', freezing_params freeze_embeds m training_args model_args adapter_args σ = Ok σ' ∧
        (ModelArgs.unfreeze_lm_head model_args = true →
         ∀ p, p ∈ parameters (lm_head m) → σ' p = true) ∧
        (ModelArgs.unfreeze_layer_norms model_args = true →
         ∀ p, in_instance_of [T5LayerNorm] (as_module m) p = true → σ' p = true) ∧
        (AdapterArgs.conditional_layer_norm_for_T5 adapter_args = true →
         ∀ p, in_instance_of [LayerNormHyperNet] (as_module m) p = true → σ' p = true).
Proof.
  intros Hfe Hctl.
  destruct (freezing_params_effect m training_args model_args adapter_args σ Hfe Hctl)
    as (σ' & Hrun & Hσ').
  exists σ'. split; [done|]. repeat split.
  - intros H p Hp%is_param_of_true. rewrite Hσ'.
    unfold freezing_effect, unfreeze_lm_head_effect. rewrite H, Hp. cbn.
    by destruct (conditional_layer_norm_effect m adapter_args p) as [[]|] eqn:E1,
         (unfreeze_layer_norms_effect m model_args p) as [[]|] eqn:E2;
      unfold conditional_layer_norm_effect, unfreeze_layer_norms_effect, forced in *;
      repeat case_match.
  - intros H p Hp. rewrite Hσ'.
    unfold freezing_effect, unfreeze_layer_norms_effect. rewrite H, Hp. cbn.
    by destruct (conditional_layer_norm_effect m adapter_args p) as [[]|] eqn:E1;
      unfold conditional_layer_norm_effect, forced in *; repeat case_match.
  - intros H p Hp. rewrite Hσ'.
    unfold freezing_effect, conditional_layer_norm_effect. by rewrite H, Hp.
Qed.

End FreezingEffects.

(** ** upload and its callers *)

Section UploadFurther.

Context {V : Type} (host : Host V).
Implicit Types (d b : string) (h : history V).
Import Utils.

Ltac upload_split d b h :=
  rewrite upload_run, primary_attempt_run; cbv zeta;
  destruct (host_system host h (rm_command primary_tool d b)) as [?n1|?e1];
  [ destruct (host_system host _ (cp_command primary_tool d b)) as [?n2|?e2];
    [ case_bool_decide | ] | ];
  try (rewrite fallback_attempt_run; cbv zeta;
       destruct (host_system host _ (rm_command fallback_tool d b)) as [?n3|?e3];
       [ destruct (host_system host _ (cp_command fallback_tool d b)) as [?n4|?e4] | ]);
  cbn [fst snd]; rewrite <- ?app_assoc; cbn [app]; rewrite ?new_events_app.

Lemma upload_events_commands d b h e :
  e ∈ new_events h (snd (upload host d b h)) →
  ∃ cmd r, e = Sys cmd r ∧ cmd ∈ upload_commands d b.
Proof.
  unfold upload_commands. upload_split d b h; intros He; set_unfold;
    repeat (destruct He as [->|He]; [eexists _, _; split; [reflexivity|]; by auto 6|]);
    done.
Qed.

(** X10.  A run of upload issues between two and four os.system calls and
    nothing else; the first is the remove with the absolute tool path, each
    call uses one of the four command lines of the routine, and no command
    line is issued twice: there is one retry, never a loop. *)
Theorem upload_command_lines d b h :
  let evs := new_events h (snd (upload host d b h)) in
  (2 ≤ length evs ≤ 4)%nat ∧
  (∃ r, head evs = Some (Sys (rm_command primary_tool d b) r)) ∧
  (∀ e, e ∈ evs → ∃ cmd r, e = Sys cmd r ∧ cmd ∈ upload_commands d b) ∧
  NoDup (omap command_of evs).
Proof.
  cbv zeta. split; [|split; [|split]].
  - upload_split d b h; cbn; lia.
  - upload_split d b h; by eexists.
  - apply upload_events_commands.
  - pose proof (tools_differ d b d b) as (?&?&?&?).
    pose proof (rm_is_not_cp primary_tool d b d b).
    pose proof (rm_is_not_cp fallback_tool d b d b).
    upload_split d b h; cbn [omap command_of]; cbn;
      repeat (apply NoDup_cons; split; [set_unfold; naive_solver|]); apply NoDup_nil_2.
Qed.

(** X11.  For a relative upload_dir and a bucket name that is not empty
    and does not end in a slash, every command of upload removes, or copies
    upload_dir to, the one remote path gs://<gcs_bucket>/<upload_dir>. *)
Theorem upload_relative_target d b h :
  PyStr.startswith_sep d = false →
  PyStr.is_empty b = false →
  PyStr.endswith_sep b = false →
  ∀ e, e ∈ new_events h (snd (upload host d b h)) →
    ∃ tool r,
      (tool = primary_tool ∨ tool = fallback_tool) ∧
      (e = Sys (tool +:+ " -m rm -r " +:+ "gs://" +:+ b +:+ "/" +:+ d) r ∨
       e = Sys (tool +:+ " -m cp -r " +:+ d +:+ " " +:+ "gs://" +:+ b +:+ "/" +:+ d) r).
Proof.
  intros Hd Hb Hb' e He.
  destruct (upload_events_commands d b h e He) as (cmd & r & -> & Hcmd).
  unfold upload_commands, rm_command, cp_command in Hcmd.
  rewrite (remote_path_relative d b Hd Hb Hb') in Hcmd.
  set_unfold. destruct Hcmd as [->|[->|[->|[->|[]]]]].
  - exists primary_tool, r. auto.
  - exists primary_tool, r. auto.
  - exists fallback_tool, r. auto.
  - exists fallback_tool, r. auto.
Qed.

(** X12.  on_save runs upload(args.output_dir, args.gcs_bucket) when the
    process is the world's process zero and a bucket is given, and otherwise
    does nothing at all: the shell is used exactly in the first case. *)
Theorem on_save_uploads (args : Callback.args) (state : Callback.state) h :
  let run := on_save host args state h in
  (shell_used (new_events h (snd run)) ↔
   Callback.is_world_process_zero state = true ∧ Callback.gcs_bucket args ≠ None) ∧
  (Callback.is_world_process_zero state = false ∨ Callback.gcs_bucket args = None →
   run = (Ok tt, h)) ∧
  (∀ bucket, Callback.is_world_process_zero state = true →
             Callback.gcs_bucket args = Some bucket →
             run = upload host (Callback.output_dir args) bucket h).
Proof.
  cbv zeta. unfold on_save.
  destruct (Callback.is_world_process_zero state), (Callback.gcs_bucket args) as [bucket|];
    (split; [|split]); try done.
  - split; [done|]. intros _. apply upload_uses_shell.
  - intros [|]; done.
  - intros bucket' _ [= <-]. done.
  - split; [|by intros [_ ?]]. cbn. replace h with (h ++ []) at 2 by apply app_nil_r.
    rewrite new_events_app. intros (cmd & r & Hin). by apply elem_of_nil in Hin.
  - split; [|by intros [? _]]. cbn. replace h with (h ++ []) at 2 by apply app_nil_r.
    rewrite new_events_app. intros (cmd & r & Hin). by apply elem_of_nil in Hin.
  - split; [|by intros [? _]]. cbn. replace h with (h ++ []) at 2 by apply app_nil_r.
    rewrite new_events_app. intros (cmd & r & Hin). by apply elem_of_nil in Hin.
Qed.

End UploadFurther.

(** ** str and int, one after the other *)

Section StrProofs.

Import PyStr.
Implicit Types (d : Decimal.uint) (cs : list ascii).

(** The characters str writes for a decimal number. *)
Lemma uint_chars_digits d :
  Forall (λ c, is_digit c = true) (list_ascii_of_string (NilEmpty.string_of_uint d)).
Proof. induction d; cbn; by constructor. Qed.

Lemma int_digits_of_uint_acc d :
  ∀ acc, int_digits (Z.pos acc) true (list_ascii_of_string (NilEmpty.string_of_uint d)) =
         Some (Z.pos (Pos.of_uint_acc d acc)).
Proof.
  induction d as [|d IH|d IH|d IH|d IH|d IH|d IH|d IH|d IH|d IH|d IH]; intros acc;
    [done|..];
    cbn [NilEmpty.string_of_uint list_ascii_of_string int_digits Pos.of_uint_acc];
    change (is_digit _) with true; cbn match; rewrite <- IH; f_equal;
    unfold digit_val; set (k := Z.of_nat _); vm_compute in k; subst k; lia.
Qed.

Lemma int_digits_of_uint d :
  int_digits 0 true (list_ascii_of_string (NilEmpty.string_of_uint d)) =
    Some (Z.of_N (Pos.of_uint d)).
Proof.
  induction d as [|d IH|d IH|d IH|d IH|d IH|d IH|d IH|d IH|d IH|d IH];
    [done|exact IH|..];
    cbn [NilEmpty.string_of_uint list_ascii_of_string int_digits Pos.of_uint Z.of_N];
    change (is_digit _) with true; cbn match; rewrite <- int_digits_of_uint_acc;
    reflexivity.
Qed.

Lemma int_digits_of_uint_start d :
  d ≠ Decimal.Nil →
  int_digits 0 false (list_ascii_of_string (NilEmpty.string_of_uint d)) =
    Some (Z.of_N (Pos.of_uint d)).
Proof. intros Hd. rewrite <- int_digits_of_uint. by destruct d. Qed.

Lemma lstrip_no_space cs : Forall (λ c, is_space c = false) cs → lstrip cs = cs.
Proof. destruct 1 as [|c cs Hc _]; [done|]. by apply lstrip_starts. Qed.

Lemma strip_no_space cs : Forall (λ c, is_space c = false) cs → strip cs = cs.
Proof.
  intros H. unfold strip. rewrite (lstrip_no_space cs H).
  rewrite lstrip_no_space by by apply Forall_rev. apply rev_involutive.
Qed.

Lemma digits_no_space cs :
  Forall (λ c, is_digit c = true) cs → Forall (λ c, is_space c = false) cs.
Proof. intros H. eapply Forall_impl; [exact H|]. intros c. apply digit_not_space. Qed.

(** int(str(n)) == n *)
Lemma int_str n : int (str n) = Some n.
Proof.
  unfold str, int. destruct n as [|p|p]; [done|..]; cbn [Z.to_int NilZero.string_of_int].
  - pose proof (DecimalPos.Unsigned.to_uint_nonnil p) as Hnil.
    pose proof (DecimalPos.Unsigned.of_to p) as Hp.
    pose proof (uint_chars_digits (Pos.to_uint p)) as Hds.
    pose proof (int_digits_of_uint_start _ Hnil) as Hint.
    replace (NilZero.string_of_uint (Pos.to_uint p))
      with (NilEmpty.string_of_uint (Pos.to_uint p)) by by destruct (Pos.to_uint p).
    rewrite strip_no_space by by apply digits_no_space.
    destruct (list_ascii_of_string _) as [|c r]; [done|].
    apply Forall_cons in Hds as [Hc _].
    destruct (digit_not_sign c Hc) as (H1 & H2 & _).
    rewrite !bool_decide_eq_false_2 by done. by rewrite Hint, Hp.
  - pose proof (DecimalPos.Unsigned.to_uint_nonnil p) as Hnil.
    pose proof (DecimalPos.Unsigned.of_to p) as Hp.
    pose proof (uint_chars_digits (Pos.to_uint p)) as Hds.
    pose proof (int_digits_of_uint_start _ Hnil) as Hint.
    replace (NilZero.string_of_uint (Pos.to_uint p))
      with (NilEmpty.string_of_uint (Pos.to_uint p)) by by destruct (Pos.to_uint p).
    cbn [list_ascii_of_string].
    rewrite strip_no_space by (constructor; [done|by apply digits_no_space]).
    cbn. by rewrite Hint, Hp.
Qed.

(** str of a number that is not negative has no minus sign. *)
Lemma str_no_minus n : 0 ≤ n → contains "-" (str n) = false.
Proof.
  intros Hn. apply not_true_is_false. intros H%contains_elem_of.
  assert (Forall (λ c, is_digit c = true) (list_ascii_of_string (str n))) as Hds.
  { unfold str. destruct n as [|p|p]; [by repeat constructor| |lia].
    cbn [Z.to_int NilZero.string_of_int].
    replace (NilZero.string_of_uint (Pos.to_uint p))
      with (NilEmpty.string_of_uint (Pos.to_uint p)).
    - apply uint_chars_digits.
    - pose proof (DecimalPos.Unsigned.to_uint_nonnil p). by destruct (Pos.to_uint p). }
  rewrite Forall_forall in Hds. by apply Hds in H.
Qed.

End StrProofs.

(** ** get_last_checkpoint_path, further *)

Section CheckpointFurther.

Context {V : Type}.
Implicit Types (host : Host V) (h : history V) (paths : list string).
Import Utils.

Lemma checkpoint_suffix_app pre s :
  PyStr.contains "-" s = false → checkpoint_suffix (pre +:+ String "-" s) = s.
Proof.
  intros Hs.
  destruct (checkpoint_suffix_spec (pre +:+ String "-" s)) as [Hno [E|[pre' E]]].
  - rewrite <- E in Hno. by rewrite contains_app_sep in Hno.
  - symmetry. by eapply (after_last_sep_unique "-" pre pre').
Qed.

(** The path the routine builds for a number that is not negative is cut
    back to that number. *)
Lemma checkpoint_path_number output_dir n :
  0 ≤ n →
  PyStr.int (checkpoint_suffix
               (PyStr.os_path_join output_dir ("checkpoint-" +:+ PyStr.str n))) = Some n.
Proof.
  intros Hn.
  assert (∃ pre, PyStr.os_path_join output_dir ("checkpoint-" +:+ PyStr.str n) =
                 pre +:+ String "-" (PyStr.str n)) as [pre ->].
  { unfold PyStr.os_path_join. rewrite string_app_cons. cbn [PyStr.startswith_sep].
    rewrite bool_decide_eq_false_2 by done.
    destruct (_ || _).
    - exists (output_dir +:+ "checkpoint"). by rewrite string_app_assoc.
    - exists (output_dir +:+ "/checkpoint"). by rewrite string_app_assoc. }
  rewrite checkpoint_suffix_app by by apply str_no_minus.
  apply int_str.
Qed.

Lemma checkpoint_numbers_inv paths l :
  checkpoint_numbers paths = Ok l →
  Forall2 (λ p n, PyStr.int (checkpoint_suffix p) = Some n) paths l.
Proof.
  revert l. induction paths as [|p paths IH]; intros l; cbn [checkpoint_numbers].
  - intros [= <-]. constructor.
  - destruct (PyStr.int (checkpoint_suffix p)) as [n|] eqn:Hn; [|done].
    destruct (checkpoint_numbers paths) as [l'|]; [|done].
    intros [= <-]. constructor; auto.
Qed.

Lemma checkpoint_numbers_fmap paths l :
  checkpoint_numbers paths = Ok l →
  l = (λ p, default 0 (PyStr.int (checkpoint_suffix p))) <$> paths.
Proof.
  intros H%checkpoint_numbers_inv.
  induction H as [|p n paths l Hn _ IH]; [done|]. cbn. by rewrite Hn, <- IH.
Qed.

Lemma checkpoint_numbers_cases paths :
  (∃ l, checkpoint_numbers paths = Ok l) ∨
  (checkpoint_numbers paths = Raise ValueError ∧
   ∃ p, p ∈ paths ∧ PyStr.int (checkpoint_suffix p) = None).
Proof.
  induction paths as [|p paths IH]; cbn [checkpoint_numbers]; [left; eauto|].
  destruct (PyStr.int (checkpoint_suffix p)) as [n|] eqn:Hn.
  - destruct IH as [[l ->]|[-> (q & Hq & Hnone)]]; [left; eauto|].
    right. split; [done|]. exists q. split; [by apply list_elem_of_further|done].
  - right. split; [done|]. exists p. split; [apply list_elem_of_here|done].
Qed.

Lemma max_list_permutation c cs c' cs' :
  c :: cs ≡ₚ c' :: cs' → max_list c cs = max_list c' cs'.
Proof.
  intros Hperm.
  destruct (max_list_spec c cs) as [Hin Hle].
  destruct (max_list_spec c' cs') as [Hin' Hle'].
  apply Z.le_antisymm.
  - apply Hle'. by rewrite <- Hperm.
  - apply Hle. by rewrite Hperm.
Qed.

(** X13.  The result depends on the set of matched paths only, not on the
    order in which glob lists them: two listings that are permutations of
    each other give the same path, or the same ValueError. *)
Theorem last_checkpoint_order_independent host host' output_dir h h' :
  host_glob host h (PyStr.os_path_join output_dir "checkpoint-*") ≡ₚ
  host_glob host' h' (PyStr.os_path_join output_dir "checkpoint-*") →
  fst (get_last_checkpoint_path host output_dir h) =
  fst (get_last_checkpoint_path host' output_dir h').
Proof.
  rewrite !get_last_checkpoint_path_run. cbv zeta. cbn [fst].
  generalize (host_glob host h (PyStr.os_path_join output_dir "checkpoint-*")).
  generalize (host_glob host' h' (PyStr.os_path_join output_dir "checkpoint-*")).
  intros paths' paths Hperm.
  destruct (checkpoint_numbers_cases paths) as [[l Hl]|[Hl (p & Hp & Hnone)]].
  - destruct (checkpoint_numbers_cases paths') as [[l' Hl']|[_ (p & Hp & Hnone)]].
    + pose proof (checkpoint_numbers_fmap _ _ Hl) as El.
      pose proof (checkpoint_numbers_fmap _ _ Hl') as El'.
      assert (l ≡ₚ l') as Hll by (by rewrite El, El', Hperm).
      rewrite Hl, Hl'.
      destruct paths as [|p0 paths], paths' as [|p0' paths'];
        [done|by apply Permutation_nil_cons in Hperm
         |symmetry in Hperm; by apply Permutation_nil_cons in Hperm|].
      destruct l as [|c cs], l' as [|c' cs'];
        [done|by apply Permutation_nil_cons in Hll
         |symmetry in Hll; by apply Permutation_nil_cons in Hll|].
      by rewrite (max_list_permutation c cs c' cs' Hll).
    + rewrite <- Hperm in Hp. apply checkpoint_numbers_inv in Hl.
      apply list_elem_of_lookup in Hp as [i Hi].
      destruct (Forall2_lookup_l _ _ _ _ _ Hl Hi) as (n & _ & Hn). congruence.
  - rewrite Hl. rewrite (checkpoint_numbers_raise paths').
    + destruct paths as [|p0 paths]; [by apply elem_of_nil in Hp|].
      destruct paths' as [|p0' paths'];
        [symmetry in Hperm; by apply Permutation_nil_cons in Hperm|done].
    + exists p. split; [by rewrite <- Hperm|done].
Qed.

(** What the routine returns when glob found something. *)
Lemma last_checkpoint_returns host output_dir h path :
  host_glob host h (PyStr.os_path_join output_dir "checkpoint-*") ≠ [] →
  fst (get_last_checkpoint_path host output_dir h) = Ok path →
  ∃ m, is_max_checkpoint
         (host_glob host h (PyStr.os_path_join output_dir "checkpoint-*")) m ∧
       path = PyStr.os_path_join output_dir ("checkpoint-" +:+ PyStr.str m).
Proof.
  rewrite get_last_checkpoint_path_run. cbv zeta. cbn [fst].
  generalize (host_glob host h (PyStr.os_path_join output_dir "checkpoint-*")).
  intros paths Hne. destruct paths as [|p0 paths]; [done|].
  destruct (checkpoint_numbers (p0 :: paths)) as [[|c cs]|e] eqn:Hl; [done| |done].
  intros [= <-]. exists (max_list c cs). split; [|done].
  apply checkpoint_numbers_inv in Hl.
  destruct (max_list_spec c cs) as [Hin Hle]. split.
  - apply list_elem_of_lookup in Hin as [i Hi].
    destruct (Forall2_lookup_r _ _ _ _ _ Hl Hi) as (p & Hp & Hpn).
    exists p. split; [|done]. apply list_elem_of_lookup. eauto.
  - intros p n Hp Hn. apply Hle.
    apply list_elem_of_lookup in Hp as [i Hi].
    destruct (Forall2_lookup_l _ _ _ _ _ Hl Hi) as (n' & Hn' & Hpn).
    apply list_elem_of_lookup. exists i. congruence.
Qed.

(** X14.  When the routine returns a path built from the matches, the
    number in it is the largest one parsed, it is not negative (the split at
    '-' leaves no minus sign), and the returned path parses back to that
    number: running the same parse on the result gives the maximum again. *)
Theorem last_checkpoint_round_trip host output_dir h path :
  host_glob host h (PyStr.os_path_join output_dir "checkpoint-*") ≠ [] →
  fst (get_last_checkpoint_path host output_dir h) = Ok path →
  ∃ m, 0 ≤ m ∧
       is_max_checkpoint
         (host_glob host h (PyStr.os_path_join output_dir "checkpoint-*")) m ∧
       path = PyStr.os_path_join output_dir ("checkpoint-" +:+ PyStr.str m) ∧
       PyStr.int (checkpoint_suffix path) = Some m.
Proof.
  intros Hne Hrun.
  destruct (last_checkpoint_returns host output_dir h path Hne Hrun) as (m & Hmax & ->).
  assert (0 ≤ m) as Hm.
  { destruct Hmax as [(p & _ & Hp) _]. by eapply checkpoint_number_nonneg. }
  exists m. repeat split; try done; try apply Hmax.
  by apply checkpoint_path_number.
Qed.

(** X15.  When every matched path is one the routine itself could return,
    os.path.join(output_dir, "checkpoint-" + str(n)) with n not negative,
    the call returns, and the path it returns is one of the matches: the
    checkpoint it names exists. *)
Theorem last_checkpoint_exists host output_dir h :
  let paths := host_glob host h (PyStr.os_path_join output_dir "checkpoint-*") in
  paths ≠ [] →
  (∀ p, p ∈ paths →
        ∃ n, 0 ≤ n ∧ p = PyStr.os_path_join output_dir ("checkpoint-" +:+ PyStr.str n)) →
  ∃ path, fst (get_last_checkpoint_path host output_dir h) = Ok path ∧ path ∈ paths.
Proof.
  cbv zeta. intros Hne Hcanon.
  assert (∃ path, fst (get_last_checkpoint_path host output_dir h) = Ok path) as [path Hrun].
  { rewrite get_last_checkpoint_path_run. cbv zeta. cbn [fst].
    destruct (checkpoint_numbers_cases
                (host_glob host h (PyStr.os_path_join output_dir "checkpoint-*")))
      as [[l Hl]|[_ (p & Hp & Hnone)]].
    - rewrite Hl. apply checkpoint_numbers_inv, Forall2_length in Hl.
      destruct (host_glob host h _) as [|p0 paths]; [done|].
      destruct l as [|c cs]; [done|]. eauto.
    - destruct (Hcanon p Hp) as (n & Hn & ->).
      by rewrite checkpoint_path_number in Hnone. }
  exists path. split; [done|].
  destruct (last_checkpoint_returns host output_dir h path Hne Hrun)
    as (m & [(p & Hp & Hpm) _] & ->).
  destruct (Hcanon p Hp) as (n & Hn & E).
  rewrite E, checkpoint_path_number in Hpm by done. injection Hpm as ->.
  by rewrite <- E.
Qed.

End CheckpointFurther.

(** ** handle_metrics, further *)

Section MetricsFurther.

Context {V : Type} (host : Host V).
Implicit Types (h : history V) (metrics : gmap string V).
Import Utils.

Lemma sorted_keys_NoDup metrics : NoDup (sorted_keys metrics).
Proof.
  unfold sorted_keys. rewrite merge_sort_Permutation. apply NoDup_fst_map_to_list.
Qed.

(** X16.  handle_metrics never raises KeyError in its loop: after the
    heading it logs exactly one line per key of metrics, each with the value
    of that key, in increasing order of the keys, and then continues as
    save_json_file on the file split + "_results.json". *)
Theorem handle_metrics_log_order split metrics output_dir gcs_bucket h :
  ∃ keys lines,
    Sorted String.le keys ∧ NoDup keys ∧
    (∀ key, key ∈ keys ↔ is_Some (metrics !! key)) ∧
    metric_lines (host_format host) metrics keys lines ∧
    handle_metrics host split metrics output_dir gcs_bucket h =
      save_json_file host metrics (split +:+ "_results.json") output_dir gcs_bucket
                     (h ++ Log ("***** " +:+ split +:+ " metrics *****") :: lines).
Proof.
  destruct (handle_metrics_run host split metrics output_dir gcs_bucket h)
    as (lines & Hlines & Hrun).
  exists (sorted_keys metrics), lines.
  split; [apply sorted_keys_sorted|]. split; [apply sorted_keys_NoDup|].
  split; [apply sorted_keys_elem_of|]. done.
Qed.

End MetricsFurther.

(** ** Configuration objects, further *)

Section ConfigFurther.

Context {V : Type} (host : Host V) (TASK_MAPPING : gmap string (task_dataset V)).
Implicit Types (m : model) (σ : nat → gmap string V) (h : history V).

Lemma dict_update_lookup (d other : gmap string V) k :
  dict_update d other !! k =
    match other !! k with Some v => Some v | None => d !! k end.
Proof.
  unfold dict_update. rewrite lookup_union.
  by destruct (other !! k), (d !! k).
Qed.

Lemma use_task_specific_params_run m task σ h ds c :
  TASK_MAPPING !! task = Some ds → task_specific_config ds = Some c →
  ∃ msg, use_task_specific_params host TASK_MAPPING m task σ h =
           (Ok (m, <[config m := dict_update (σ (config m)) c]> σ), h ++ [Log msg]).
Proof.
  intros Hds Hc. unfold use_task_specific_params. rewrite Hds, Hc. by eexists.
Qed.

(** X17.  use_task_specific_params overrides exactly the entries named by
    the task's configuration and keeps every other entry of model.config;
    applying it a second time for the same task changes no configuration
    object any further. *)
Theorem use_task_specific_params_idempotent m task σ h ds c :
  TASK_MAPPING !! task = Some ds → task_specific_config ds = Some c →
  ∃ σ1 h1 σ2 h2,
    use_task_specific_params host TASK_MAPPING m task σ h = (Ok (m, σ1), h1) ∧
    use_task_specific_params host TASK_MAPPING m task σ1 h1 = (Ok (m, σ2), h2) ∧
    (∀ k, σ1 (config m) !! k =
          match c !! k with Some v => Some v | None => σ (config m) !! k end) ∧
    (∀ r k, σ2 r !! k = σ1 r !! k).
Proof.
  intros Hds Hc.
  destruct (use_task_specific_params_run m task σ h ds c Hds Hc) as [msg1 E1].
  destruct (use_task_specific_params_run m task
              (<[config m := dict_update (σ (config m)) c]> σ) (h ++ [Log msg1]) ds c Hds Hc)
    as [msg2 E2].
  eexists _, _, _, _. split; [exact E1|]. split; [exact E2|]. split.
  - intros k. by rewrite fn_lookup_insert, dict_update_lookup.
  - intros r k. destruct (decide (r = config m)) as [->|Hr].
    + rewrite !fn_lookup_insert, !dict_update_lookup. by destruct (c !! k).
    + by rewrite !fn_lookup_insert_ne.
Qed.

(** X18.  The update is made in place, and reset_config only rebinds the
    attribute: resetting model.config to the very object it referred to
    during use_task_specific_params gives back the same model, and the
    task's entries are still in its configuration. *)
Theorem reset_config_keeps_update m task σ h ds c :
  TASK_MAPPING !! task = Some ds → task_specific_config ds = Some c →
  ∃ σ1 h1 h2,
    use_task_specific_params host TASK_MAPPING m task σ h = (Ok (m, σ1), h1) ∧
    reset_config (V := V) m (config m) σ1 h1 = (Ok (m, σ1), h2) ∧
    ∀ k v, c !! k = Some v → σ1 (config m) !! k = Some v.
Proof.
  intros Hds Hc.
  destruct (use_task_specific_params_run m task σ h ds c Hds Hc) as [msg1 E1].
  eexists _, _, _. split; [exact E1|]. split.
  - unfold reset_config, set_config. by destruct m.
  - intros k v Hk. by rewrite fn_lookup_insert, dict_update_lookup, Hk.
Qed.

End ConfigFurther.

(** ** Calls to the host *)

Section HostCalls.

Context {V : Type} (host : Host V) (TASK_MAPPING : gmap string (task_dataset V)).
Implicit Types (h : history V).
Import Utils.

Lemma host_calls_after {A} (run : result A * history V) h pre lo hi :
  host_calls run (h ++ pre) lo hi →
  host_calls run h (length pre + lo) (length pre + hi).
Proof.
  intros (evs & E & Hlen). exists (pre ++ evs).
  rewrite app_assoc. split; [done|]. rewrite length_app. lia.
Qed.

Lemma host_calls_eq {A} (run : result A * history V) h lo hi lo' hi' :
  lo = lo' → hi = hi' → host_calls run h lo hi → host_calls run h lo' hi'.
Proof. by intros -> ->. Qed.

(** X20.  Every routine that talks to the host keeps the history it
    started from and adds a number of calls fixed by its arguments:
    create_dir one call when the directory exists and two when it does
    not; upload two to four os.system calls; save_json_file one call
    without a bucket and four to six with one; handle_metrics one line per
    metric and two more calls without a bucket, five to seven more with
    one; get_last_checkpoint_path one call; use_task_specific_params at
    most one; reset_config one. *)
Theorem host_call_bounds :
  (∀ output_dir h,
     host_calls (create_dir host output_dir h) h
                (if host_exists host h output_dir then 1 else 2)
                (if host_exists host h output_dir then 1 else 2)) ∧
  (∀ upload_dir gcs_bucket h, host_calls (upload host upload_dir gcs_bucket h) h 2 4) ∧
  (∀ json_dict outfile_name output_dir h,
     host_calls (save_json_file host json_dict outfile_name output_dir None h) h 1 1) ∧
  (∀ json_dict outfile_name output_dir bucket h,
     host_calls (save_json_file host json_dict outfile_name output_dir (Some bucket) h)
                h 4 6) ∧
  (∀ split metrics output_dir h,
     host_calls (handle_metrics host split metrics output_dir None h) h
                (size metrics + 2) (size metrics + 2)) ∧
  (∀ split metrics output_dir bucket h,
     host_calls (handle_metrics host split metrics output_dir (Some bucket) h) h
                (size metrics + 5) (size metrics + 7)) ∧
  (∀ output_dir h, host_calls (get_last_checkpoint_path host output_dir h) h 1 1) ∧
  (∀ m task σ h,
     host_calls (use_task_specific_params host TASK_MAPPING m task σ h) h 0 1) ∧
  (∀ m cfg σ h, host_calls (reset_config (V := V) m cfg σ h) h 1 1).
Proof.
  assert (Hsave_none : ∀ json_dict outfile_name output_dir h,
    host_calls (save_json_file host json_dict outfile_name output_dir None h) h 1 1).
  { intros. rewrite save_json_file_run. cbv zeta.
    eexists. split; [reflexivity|]. cbn. lia. }
  assert (Hsave_some : ∀ json_dict outfile_name output_dir bucket h,
    host_calls (save_json_file host json_dict outfile_name output_dir (Some bucket) h)
               h 4 6).
  { intros. rewrite save_json_file_run. cbv zeta. rewrite <- app_assoc.
    apply (host_calls_after _ h
             [SaveJson json_dict (PyStr.os_path_join output_dir outfile_name);
              Log "***** Uploading results into gs-bucket *****"] 2 4).
    apply upload_event_count. }
  repeat split.
  - intros output_dir h. unfold create_dir, mbind, M_bind, bind, os_path_exists.
    destruct (host_exists host h output_dir); cbn [negb].
    + eexists. split; [reflexivity|]. cbn. lia.
    + unfold os_makedirs. rewrite <- app_assoc.
      eexists. split; [reflexivity|]. cbn. lia.
  - intros. apply upload_event_count.
  - exact Hsave_none.
  - exact Hsave_some.
  - intros split metrics output_dir h.
    destruct (handle_metrics_run host split metrics output_dir None h)
      as (lines & Hlines & ->).
    apply (metric_lines_are_logs host) in Hlines as [_ Hlen].
    rewrite sorted_keys_length in Hlen.
    eapply host_calls_eq; [| |apply host_calls_after, Hsave_none];
      cbn [length]; lia.
  - intros split metrics output_dir bucket h.
    destruct (handle_metrics_run host split metrics output_dir (Some bucket) h)
      as (lines & Hlines & ->).
    apply (metric_lines_are_logs host) in Hlines as [_ Hlen].
    rewrite sorted_keys_length in Hlen.
    eapply host_calls_eq; [| |apply host_calls_after, Hsave_some];
      cbn [length]; lia.
  - intros output_dir h. rewrite get_last_checkpoint_path_run. cbv zeta.
    eexists. split; [reflexivity|]. cbn. lia.
  - intros m task σ h. unfold use_task_specific_params.
    destruct (TASK_MAPPING !! task) as [ds|].
    + destruct (task_specific_config ds).
      * eexists. split; [reflexivity|]. cbn. lia.
      * exists []. rewrite app_nil_r. split; [done|]. cbn. lia.
    + exists []. rewrite app_nil_r. split; [done|]. cbn. lia.
  - intros m cfg σ h. eexists. split; [reflexivity|]. cbn. lia.
Qed.

End HostCalls.

(** ** The further properties on the samples *)

Lemma sample_no_controller_needed training_args model_args :
  needs_controller training_args model_args (adapter_flags false) = true →
  is_Some (task_embedding_controller sample_model).
Proof. intros H. by vm_compute in H. Qed.

Lemma sample_meta_has_controller training_args model_args adapter_args :
  needs_controller training_args model_args adapter_args = true →
  is_Some (task_embedding_controller sample_meta_model).
Proof. intros _. by eexists. Qed.

Lemma freezing_params_frame_witness :
  ∃ σ', freezing_params no_freeze_embeds sample_model (training_flags true)
          (model_flags true false true false false false) (adapter_flags false)
          all_trainable = Ok σ' ∧
        ∀ p, p ∉ reachable_parameters sample_model → σ' p = all_trainable p.
Proof.
  apply (freezing_params_frame no_freeze_embeds sample_model (training_flags true)
           (model_flags true false true false false false) (adapter_flags false)
           all_trainable eq_refl).
  apply sample_no_controller_needed.
Defined.

Lemma freezing_params_idempotent_witness :
  ∃ σ' σ'',
    freezing_params no_freeze_embeds sample_meta_model (training_flags true)
      (model_flags false false true false true false) meta_adapter_flags all_trainable
      = Ok σ' ∧
    freezing_params no_freeze_embeds sample_meta_model (training_flags true)
      (model_flags false false true false true false) meta_adapter_flags σ' = Ok σ'' ∧
    ∀ p, σ'' p = σ' p.
Proof.
  apply (freezing_params_idempotent no_freeze_embeds sample_meta_model (training_flags true)
           (model_flags false false true false true false) meta_adapter_flags
           all_trainable eq_refl).
  apply sample_meta_has_controller.
Defined.

Lemma freezing_params_attribute_error_witness :
  freezing_params no_freeze_embeds sample_model (training_flags true)
    (model_flags false false false false false false) meta_adapter_flags all_trainable =
    Raise (AttributeError "task_embedding_controller").
Proof.
  destruct (freezing_params_attribute_error no_freeze_embeds sample_model
              (training_flags true) (model_flags false false false false false false)
              meta_adapter_flags all_trainable eq_refl) as [(Hraise & _ & _)|(_ & Hctl)].
  - exact Hraise.
  - destruct (Hctl eq_refl) as [c Hc]. discriminate Hc.
Defined.

Lemma freeze_model_freezes_all_witness :
  ∃ σ', freezing_params no_freeze_embeds sample_model (training_flags true)
          (model_flags true false false false false false) (adapter_flags false)
          all_trainable = Ok σ' ∧
        ∀ p, p ∈ parameters (as_module sample_model) → σ' p = false.
Proof.
  apply (freeze_model_freezes_all no_freeze_embeds sample_model (training_flags true)
           (model_flags true false false false false false) (adapter_flags false)
           all_trainable eq_refl eq_refl eq_refl eq_refl eq_refl eq_refl eq_refl).
  apply sample_no_controller_needed.
Defined.

Lemma freeze_model_but_lm_head_pattern_witness :
  ∃ σ', freezing_params no_freeze_embeds sample_model (training_flags true)
          (model_flags false true false false false false) (adapter_flags false)
          all_trainable = Ok σ' ∧
        ∀ p, p ∈ parameters (as_module sample_model) ∨
             p ∈ parameters (lm_head sample_model) →
             σ' p = is_param_of (lm_head sample_model) p.
Proof.
  apply (freeze_model_but_lm_head_pattern no_freeze_embeds sample_model
           (training_flags true) (model_flags false true false false false false)
           (adapter_flags false) all_trainable eq_refl eq_refl eq_refl eq_refl eq_refl
           eq_refl).
  apply sample_no_controller_needed.
Defined.

(** Parameter 5 of the sample is shared by the encoder and the head: frozen
    by freeze_encoder, it is trainable again after unfreeze_lm_head. *)
Lemma freeze_encoder_and_lm_head_witness :
  ∃ σ', freezing_params no_freeze_embeds sample_model (training_flags false)
          (model_flags false false true false true false) (adapter_flags false)
          all_trainable = Ok σ' ∧
        σ' 4%nat = false ∧ σ' 5%nat = true.
Proof.
  destruct (freeze_encoder_and_lm_head no_freeze_embeds sample_model (training_flags false)
              (model_flags false false true false true false) (adapter_flags false)
              all_trainable eq_refl eq_refl eq_refl eq_refl eq_refl
              (sample_no_controller_needed _ _)) as (σ' & Hrun & Hσ').
  exists σ'. split; [exact Hrun|]. split.
  - rewrite Hσ'; [reflexivity|]. unfold sample_model; cbn. set_solver.
  - rewrite Hσ'; [reflexivity|]. unfold sample_model; cbn. set_solver.
Defined.

Lemma freeze_model_but_task_embeddings_pattern_witness :
  ∃ σ', freezing_params no_freeze_embeds sample_meta_model (training_flags true)
          (model_flags false false false true false false) meta_adapter_flags
          all_trainable = Ok σ' ∧
        ∀ p, p ∈ parameters (as_module sample_meta_model) →
             σ' p = is_meta_adapter meta_adapter_flags && in_embeddings sample_meta_model p.
Proof.
  apply (freeze_model_but_task_embeddings_pattern no_freeze_embeds sample_meta_model
           (training_flags true) (model_flags false false false true false false)
           meta_adapter_flags all_trainable eq_refl eq_refl eq_refl eq_refl eq_refl).
  intros _. by eexists.
Defined.

Lemma freezing_params_only_unfreezes_witness :
  ∃ σ', freezing_params no_freeze_embeds sample_meta_model (training_flags false)
          (model_flags false false false false true true) meta_adapter_flags
          (λ _, false) = Ok σ' ∧
        σ' 2%nat = true ∧ σ' 6%nat = true ∧ σ' 0%nat = false.
Proof.
  destruct (freezing_params_only_unfreezes no_freeze_embeds sample_meta_model
              (training_flags false) (model_flags false false false false true true)
              meta_adapter_flags (λ _, false) eq_refl eq_refl eq_refl eq_refl eq_refl
              eq_refl) as (σ' & Hrun & Hσ').
  exists σ'. split; [exact Hrun|]. by rewrite !Hσ'.
Defined.

Lemma unfreeze_flags_win_witness :
  ∃ σ', freezing_params no_freeze_embeds sample_model (training_flags true)
          (model_flags true true true false true false) (adapter_flags true)
          all_trainable = Ok σ' ∧
        σ' 6%nat = true ∧ σ' 3%nat = true.
Proof.
  destruct (unfreeze_flags_win no_freeze_embeds sample_model (training_flags true)
              (model_flags true true true false true false) (adapter_flags true)
              all_trainable eq_refl) as (σ' & Hrun & Hhead & _ & Hcond).
  { intros H. by vm_compute in H. }
  exists σ'. split; [exact Hrun|]. split.
  - apply (Hhead eq_refl). unfold sample_model; cbn. set_solver.
  - by apply (Hcond eq_refl).
Defined.

Lemma upload_relative_target_witness :
  ∃ tool r,
    (tool = Utils.primary_tool ∨ tool = Utils.fallback_tool) ∧
    ((Sys "gsutil -m cp -r out gs://b/out" (Ok 0) : event unit) =
       Sys (tool +:+ " -m rm -r " +:+ "gs://" +:+ "b" +:+ "/" +:+ "out") r ∨
     (Sys "gsutil -m cp -r out gs://b/out" (Ok 0) : event unit) =
       Sys (tool +:+ " -m cp -r " +:+ "out" +:+ " " +:+ "gs://" +:+ "b" +:+ "/" +:+ "out") r).
Proof.
  apply (upload_relative_target (picky_host (Ok 32512) (Ok 0)) "out" "b" []
           eq_refl eq_refl eq_refl).
  vm_compute. do 3 apply list_elem_of_further. apply list_elem_of_here.
Defined.

Lemma last_checkpoint_order_independent_witness :
  fst (Utils.get_last_checkpoint_path (scripted_host [] sample_listing) "out" []) =
  fst (Utils.get_last_checkpoint_path (scripted_host [] (reverse sample_listing)) "out" []).
Proof.
  apply (last_checkpoint_order_independent (scripted_host [] sample_listing)
           (scripted_host [] (reverse sample_listing)) "out" [] []).
  cbn [host_glob scripted_host]. symmetry. apply reverse_Permutation.
Defined.

Lemma last_checkpoint_round_trip_witness :
  ∃ m, 0 ≤ m ∧
       is_max_checkpoint sample_listing m ∧
       "out/checkpoint-12" = PyStr.os_path_join "out" ("checkpoint-" +:+ PyStr.str m) ∧
       PyStr.int (Utils.checkpoint_suffix "out/checkpoint-12") = Some m.
Proof.
  apply (last_checkpoint_round_trip (scripted_host [] sample_listing) "out" []
           "out/checkpoint-12").
  - discriminate.
  - reflexivity.
Defined.

Lemma last_checkpoint_exists_witness :
  ∃ path, fst (Utils.get_last_checkpoint_path (scripted_host [] sample_listing) "out" []) =
            Ok path ∧ path ∈ sample_listing.
Proof.
  apply (last_checkpoint_exists (scripted_host [] sample_listing) "out" []).
  - discriminate.
  - intros p Hp. cbn [host_glob scripted_host] in Hp. unfold sample_listing in Hp.
    set_unfold. destruct Hp as [->|[->|[->|[]]]].
    + exists 5. by split.
    + exists 12. by split.
    + exists 7. by split.
Defined.

Lemma use_task_specific_params_idempotent_witness :
  ∃ σ1 h1 σ2 h2,
    use_task_specific_params (picky_host (Ok 0) (Ok 0)) sample_tasks sample_model "rte"
      (λ _, ∅) [] = (Ok (sample_model, σ1), h1) ∧
    use_task_specific_params (picky_host (Ok 0) (Ok 0)) sample_tasks sample_model "rte"
      σ1 h1 = (Ok (sample_model, σ2), h2) ∧
    (∀ k, σ1 (config sample_model) !! k =
          match ({["max_length" := tt]} : gmap string unit) !! k with
          | Some v => Some v
          | None => (∅ : gmap string unit) !! k
          end) ∧
    (∀ r k, σ2 r !! k = σ1 r !! k).
Proof.
  apply (use_task_specific_params_idempotent (picky_host (Ok 0) (Ok 0)) sample_tasks
           sample_model "rte" (λ _, ∅) []
           {| task_specific_config := Some {["max_length" := tt]} |}).
  - by vm_compute.
  - reflexivity.
Defined.

Lemma reset_config_keeps_update_witness :
  ∃ σ1 h1 h2,
    use_task_specific_params (picky_host (Ok 0) (Ok 0)) sample_tasks sample_model "rte"
      (λ _, ∅) [] = (Ok (sample_model, σ1), h1) ∧
    reset_config sample_model (config sample_model) σ1 h1 = (Ok (sample_model, σ1), h2) ∧
    ∀ k v, ({["max_length" := tt]} : gmap string unit) !! k = Some v →
           σ1 (config sample_model) !! k = Some v.
Proof.
  apply (reset_config_keeps_update (picky_host (Ok 0) (Ok 0)) sample_tasks
           sample_model "rte" (λ _, ∅) []
           {| task_specific_config := Some {["max_length" := tt]} |}).
  - by vm_compute.
  - reflexivity.
Defined.

(** ** upload with an absolute directory *)

Section UploadAbsolute.

Context {V : Type} (host : Host V).
Implicit Types (d b : string) (h : history V).
Import Utils.

Lemma upload_events_in_commands d b h e :
  e ∈ new_events h (snd (upload host d b h)) →
  ∃ cmd r, e = Sys cmd r ∧ cmd ∈ upload_commands d b.
Proof.
  destruct (upload_attempts host d b h) as (_ & P & F & -> & [r1 HP] & HF).
  unfold upload_commands. intros [He|He]%elem_of_app.
  - destruct HP as [[_ ->]|[_ [r2 ->]]]; set_unfold;
      repeat (destruct He as [->|He]; [eexists _, _; split; [reflexivity|]; by auto 6|]);
      done.
  - destruct HF as [->|[r3 [[_ ->]|[_ [r4 ->]]]]]; set_unfold;
      repeat (destruct He as [->|He]; [eexists _, _; split; [reflexivity|]; by auto 6|]);
      done.
Qed.

(** X19.  For an absolute upload_dir the bucket plays no part: every
    command of upload removes upload_dir itself, or copies upload_dir onto
    itself, since os.path.join returns its absolute second argument. *)
Theorem upload_absolute_target d b h :
  PyStr.startswith_sep d = true →
  ∀ e, e ∈ new_events h (snd (upload host d b h)) →
    ∃ tool r,
      (tool = primary_tool ∨ tool = fallback_tool) ∧
      (e = Sys (tool +:+ " -m rm -r " +:+ d) r ∨
       e = Sys (tool +:+ " -m cp -r " +:+ d +:+ " " +:+ d) r).
Proof.
  intros Hd e He.
  destruct (upload_events_in_commands d b h e He) as (cmd & r & -> & Hcmd).
  unfold upload_commands, rm_command, cp_command in Hcmd.
  rewrite (remote_path_absolute d b Hd) in Hcmd.
  set_unfold. destruct Hcmd as [->|[->|[->|[->|[]]]]].
  - exists primary_tool, r. auto.
  - exists primary_tool, r. auto.
  - exists fallback_tool, r. auto.
  - exists fallback_tool, r. auto.
Qed.

End UploadAbsolute.

Lemma upload_absolute_target_witness :
  ∃ tool r,
    (tool = Utils.primary_tool ∨ tool = Utils.fallback_tool) ∧
    ((Sys "gsutil -m cp -r /out /out" (Ok 0) : event unit) =
       Sys (tool +:+ " -m rm -r " +:+ "/out") r ∨
     (Sys "gsutil -m cp -r /out /out" (Ok 0) : event unit) =
       Sys (tool +:+ " -m cp -r " +:+ "/out" +:+ " " +:+ "/out") r).
Proof.
  apply (upload_absolute_target (picky_host (Ok 32512) (Ok 0)) "/out" "b" [] eq_refl).
  vm_compute. do 3 apply list_elem_of_further. apply list_elem_of_here.
Defined.
